(** * Verification of the tool registration adapter (src/common/server.ts)

    A shallow embedding of [SmartBearMcpServer]: the name normaliser, the
    schema introspector ([schemaToRawShape], [getReadableTypeName],
    [formatParameterDescription]), the description compiler
    ([getDescription]) and the guarded invocation wrapper built by
    [addClient].

    Modelling conventions.
    - A JavaScript string is a [string]; each [ascii] is one UTF-16 code
      unit below 256 (the Latin-1 range), so [String.length] is the JS
      [length] and [substring 0 n] is [slice(0, n)].  Code units above 255
      are outside the model.
    - A JavaScript object used as an ordered mapping is an association list
      in property order; reads go through [obj_get] and [obj_keys], writes
      through [obj_set], as the engine's own property operations do.
      Integer-like property names, which an engine enumerates before the
      others, are outside the model.
    - A JavaScript number is an integer [Z] printed in decimal (what
      Number::toString gives below 10^21); fractions are outside the model.
    - Effects of the invocation wrapper (the callback, the telemetry sink)
      are threaded through a state-and-exception monad [M]. *)

From Stdlib Require Import String Ascii List ZArith Arith Bool Lia.
From Stdlib Require Import DecimalString DecimalPos.
From Equations Require Import Equations.
Import ListNotations.
Local Open Scope string_scope.

Set Implicit Arguments.
Set Warnings "-register-all".

(* ===================================================================== *)
(** ** JavaScript strings *)
(* ===================================================================== *)

Module JsString.

(** The code units matched by the regular expression class [\s], which
    is also the set removed by [String.prototype.trim]: TAB, LF, VT, FF,
    CR, SPACE and NBSP (the members below 256). *)
Definition isWhiteSpace (c : ascii) : bool :=
  let n := nat_of_ascii c in
  (Nat.leb 9 n && Nat.leb n 13) || Nat.eqb n 32 || Nat.eqb n 160.

(** [String.prototype.toLowerCase] on one code unit of the Latin-1 range:
    A-Z and the accented capitals U+00C0..U+00DE (without the
    multiplication sign U+00D7) move up by 32. *)
Definition toLowerCase_unit (c : ascii) : ascii :=
  let n := nat_of_ascii c in
  if (Nat.leb 65 n && Nat.leb n 90)
     || (Nat.leb 192 n && Nat.leb n 222 && negb (Nat.eqb n 215))
  then ascii_of_nat (n + 32) else c.

Fixpoint toLowerCase (s : string) : string :=
  match s with
  | EmptyString => EmptyString
  | String c s' => String (toLowerCase_unit c) (toLowerCase s')
  end.

(** [s.replace(/\s+/g, "_")] as a left-to-right scan; [in_run] records
    that the previous code unit belonged to the whitespace run whose
    underscore has already been emitted. *)
Fixpoint replace_runs (in_run : bool) (s : string) : string :=
  match s with
  | EmptyString => EmptyString
  | String c s' =>
      if isWhiteSpace c
      then if in_run then replace_runs true s'
           else String "_" (replace_runs true s')
      else String c (replace_runs false s')
  end.

Definition replaceWhitespaceRuns (s : string) : string :=
  replace_runs false s.

Fixpoint trimStart (s : string) : string :=
  match s with
  | EmptyString => EmptyString
  | String c s' => if isWhiteSpace c then trimStart s' else s
  end.

Fixpoint trimEnd (s : string) : string :=
  match s with
  | EmptyString => EmptyString
  | String c s' =>
      match trimEnd s' with
      | EmptyString => if isWhiteSpace c then EmptyString
                       else String c EmptyString
      | r => String c r
      end
  end.

Definition trim (s : string) : string := trimEnd (trimStart s).

(** [hay.includes(needle)]. *)
Fixpoint includes (needle hay : string) : bool :=
  String.prefix needle hay ||
  match hay with
  | EmptyString => false
  | String _ hay' => includes needle hay'
  end.

Fixpoint last_unit (s : string) : option ascii :=
  match s with
  | EmptyString => None
  | String c s' =>
      match s' with
      | EmptyString => Some c
      | _ => last_unit s'
      end
  end.

(** A text that neither starts nor ends with whitespace (and is not
    empty): [trim] cannot cut into an occurrence of it. *)
Definition starts_solid (s : string) : bool :=
  match s with
  | EmptyString => false
  | String c _ => negb (isWhiteSpace c)
  end.

Definition ends_solid (s : string) : bool :=
  match last_unit s with
  | Some c => negb (isWhiteSpace c)
  | None => false
  end.

(** [slice(0, n)]. *)
Definition slice0 (n : nat) (s : string) : string := substring 0 n s.

(** [Array.prototype.join]. *)
Definition join (sep : string) (l : list string) : string :=
  String.concat sep l.

(** Truthiness of a string value: only the empty string is falsy. *)
Definition truthy (s : string) : bool :=
  match s with EmptyString => false | _ => true end.

(** Decimal text of a non-negative integer, as a template literal
    prints an array index. *)
Definition of_nat (n : nat) : string :=
  NilEmpty.string_of_uint (Nat.to_uint n).

Definition of_Z (z : Z) : string :=
  NilEmpty.string_of_int (Z.to_int z).

End JsString.

(* ===================================================================== *)
(** ** JavaScript objects as ordered mappings *)
(* ===================================================================== *)

Module JsObj.
Section Ops.
Variable V : Type.

Definition t := list (string * V).

(** [o[k]]: the first binding of [k]. *)
Fixpoint obj_get (k : string) (o : t) : option V :=
  match o with
  | [] => None
  | (k', v) :: o' => if String.eqb k' k then Some v else obj_get k o'
  end.

(** [o[k] = v]: overwrite in place, or append a new property. *)
Fixpoint obj_set (k : string) (v : V) (o : t) : t :=
  match o with
  | [] => [(k, v)]
  | (k', v') :: o' =>
      if String.eqb k' k then (k', v) :: o'
      else (k', v') :: obj_set k v o'
  end.

Fixpoint mem (k : string) (ks : list string) : bool :=
  match ks with
  | [] => false
  | k' :: ks' => String.eqb k' k || mem k ks'
  end.

Fixpoint keys_from (seen : list string) (o : t) : list string :=
  match o with
  | [] => []
  | (k, _) :: o' =>
      if mem k seen then keys_from seen o'
      else k :: keys_from (k :: seen) o'
  end.

(** [Object.keys(o)]: each property name once, in property order. *)
Definition obj_keys (o : t) : list string := keys_from [] o.

(** [Object.entries(o)]: each key with the value read at that key. *)
Definition obj_entries (o : t) : list (string * V) :=
  flat_map
    (fun k => match obj_get k o with
              | Some v => [(k, v)]
              | None => []
              end)
    (obj_keys o).

(** Copying the own properties of [source] onto [target], the step an
    object spread [{...target, ...source}] performs for each operand:
    for every key of the source, read the value and define it. *)
Definition assign (target source : t) : t :=
  fold_left
    (fun acc k =>
       match obj_get k source with
       | Some v => obj_set k v acc
       | None => acc
       end)
    (obj_keys source) target.

(** [{...a, ...b}] where either operand may be [undefined]; spreading
    [undefined] copies nothing. *)
Definition spread2 (a b : option t) : t :=
  let from o := match o with Some x => x | None => [] end in
  assign (assign [] (from a)) (from b).
End Ops.
End JsObj.

Import JsObj.

(* ===================================================================== *)
(** ** JSON values and [JSON.stringify] *)
(* ===================================================================== *)

(** The values [JSON.stringify] serialises to a text.  [undefined] and
    functions, for which it returns [undefined], are not values of this
    type: zod's [default()] takes a [NoUndefined] argument, and
    [structuredContent] and the example parameters are objects. *)
Inductive JsValue : Type :=
| JsNull
| JsBool (b : bool)
| JsNumber (n : Z)
| JsStr (s : string)
| JsArray (items : list JsValue)
| JsObject (props : list (string * JsValue)).

Module Json.
Import JsString.

Definition hex_digit (n : nat) : ascii :=
  if Nat.ltb n 10 then ascii_of_nat (48 + n) else ascii_of_nat (87 + n).

Definition dquote : ascii := ascii_of_nat 34.
Definition backslash : ascii := ascii_of_nat 92.
Definition esc (c : ascii) : string := String backslash (String c EmptyString).

(** QuoteJSONString on one code unit. *)
Definition escape_unit (c : ascii) : string :=
  let n := nat_of_ascii c in
  if Nat.eqb n 34 then esc dquote
  else if Nat.eqb n 92 then esc backslash
  else if Nat.eqb n 8 then esc "b"
  else if Nat.eqb n 12 then esc "f"
  else if Nat.eqb n 10 then esc "n"
  else if Nat.eqb n 13 then esc "r"
  else if Nat.eqb n 9 then esc "t"
  else if Nat.ltb n 32
       then esc "u" ++ "00" ++ String (hex_digit (n / 16))
                                (String (hex_digit (n mod 16)) EmptyString)
       else String c EmptyString.

Fixpoint escape (s : string) : string :=
  match s with
  | EmptyString => EmptyString
  | String c s' => escape_unit c ++ escape s'
  end.

Definition quote (s : string) : string :=
  String dquote (escape s ++ String dquote EmptyString).

(** [JSON.stringify(v)]. *)
Fixpoint stringify (v : JsValue) : string :=
  match v with
  | JsNull => "null"
  | JsBool true => "true"
  | JsBool false => "false"
  | JsNumber n => of_Z n
  | JsStr s => quote s
  | JsArray items => "[" ++ join "," (map stringify items) ++ "]"
  | JsObject props =>
      "{" ++ join ","
               (map (fun kv => quote (fst kv) ++ ":" ++ stringify (snd kv))
                    props)
          ++ "}"
  end.

(** [JSON.stringify(v, null, 2)] below a container printed at
    indentation [indent]. *)
Fixpoint stringify_indent (indent : string) (v : JsValue) : string :=
  let inner := indent ++ "  " in
  let nl := String (ascii_of_nat 10) EmptyString in
  match v with
  | JsArray [] => "[]"
  | JsArray items =>
      "[" ++ nl ++ inner
          ++ join ("," ++ nl ++ inner) (map (stringify_indent inner) items)
          ++ nl ++ indent ++ "]"
  | JsObject [] => "{}"
  | JsObject props =>
      "{" ++ nl ++ inner
          ++ join ("," ++ nl ++ inner)
               (map (fun kv => quote (fst kv) ++ ": "
                                 ++ stringify_indent inner (snd kv))
                    props)
          ++ nl ++ indent ++ "}"
  | _ => stringify v
  end.

Definition stringify_pretty (v : JsValue) : string :=
  stringify_indent EmptyString v.
End Json.


(* ===================================================================== *)
(** ** Schema nodes (the zod classes the adapter inspects) *)
(* ===================================================================== *)

(** One constructor per class tested with [instanceof] in server.ts, plus
    [ZodOther] for every other schema class (nullable, date, tuple, ...).
    Each node carries its own registered [description]. *)
Inductive ZodType : Type :=
| ZodString (description : option string)
| ZodNumber (description : option string)
| ZodBoolean (description : option string)
| ZodArray (description : option string) (element : ZodType)
| ZodObject (description : option string) (shape : list (string * ZodType))
| ZodRecord (description : option string) (keyType valueType : ZodType)
| ZodEnum (description : option string) (entries : list string)
| ZodLiteral (description : option string) (values : list JsValue)
| ZodUnion (description : option string) (options : list ZodType)
| ZodIntersection (description : option string) (left right : ZodType)
| ZodOptional (description : option string) (innerType : ZodType)
| ZodDefault (description : option string) (innerType : ZodType)
             (defaultValue : JsValue)
| ZodAny (description : option string)
| ZodOther (description : option string) (className : string).

Definition ZodRawShape := list (string * ZodType).

Definition description_of (z : ZodType) : option string :=
  match z with
  | ZodString d | ZodNumber d | ZodBoolean d | ZodArray d _ | ZodObject d _
  | ZodRecord d _ _ | ZodEnum d _ | ZodLiteral d _ | ZodUnion d _
  | ZodIntersection d _ _ | ZodOptional d _ | ZodDefault d _ _ | ZodAny d
  | ZodOther d _ => d
  end.

(** Modelled from the spec: [unwrapZodType] of ./zod-utils is not part of
    the sources at hand.  Section 4.2: it "recursively strips optional and
    default wrapper kinds ... and returns the first non-wrapper node
    reached". *)
Fixpoint unwrapZodType (z : ZodType) : ZodType :=
  match z with
  | ZodOptional _ inner => unwrapZodType inner
  | ZodDefault _ inner _ => unwrapZodType inner
  | _ => z
  end.

(** Number of wrapper and record constructors above the leaves that
    [getReadableTypeName] can visit: the measure of its recursion. *)
Fixpoint visit_depth (z : ZodType) : nat :=
  match z with
  | ZodOptional _ inner => S (visit_depth inner)
  | ZodDefault _ inner _ => S (visit_depth inner)
  | ZodRecord _ k v => S (visit_depth k + visit_depth v)
  | _ => 0
  end.

Definition inspect {A : Type} (a : A) : {b : A | a = b} :=
  exist _ a eq_refl.

(** [getReadableTypeName]: unwrap first, then the [instanceof] chain; the
    record case recurses on the key and value types. *)
Equations? getReadableTypeName (zodType : ZodType) : string
  by wf (visit_depth zodType) lt :=
  getReadableTypeName zodType with inspect (unwrapZodType zodType) => {
    | exist _ (ZodRecord _ keyType valueType) E =>
        "record<" ++ getReadableTypeName keyType ++ ", "
                  ++ getReadableTypeName valueType ++ ">";
    | exist _ (ZodString _) _ => "string";
    | exist _ (ZodNumber _) _ => "number";
    | exist _ (ZodBoolean _) _ => "boolean";
    | exist _ (ZodArray _ _) _ => "array";
    | exist _ (ZodObject _ _) _ => "object";
    | exist _ (ZodEnum _ _) _ => "enum";
    | exist _ (ZodLiteral _ _) _ => "literal";
    | exist _ (ZodUnion _ _) _ => "union";
    | exist _ (ZodAny _) _ => "any";
    | exist _ _ _ => "any"
  }.
Proof.
  all: assert (D : forall z, visit_depth (unwrapZodType z) <= visit_depth z)
    by (induction z; simpl; auto with arith).
  all: specialize (D zodType); rewrite E in D; simpl in D; lia.
Qed.

(** [schemaToRawShape] on a schema that is present. *)
Fixpoint schemaToRawShape_of (schema : ZodType) : option ZodRawShape :=
  match schema with
  | ZodObject _ shape => Some shape
  | ZodIntersection _ lhs rhs =>
      Some (spread2 (schemaToRawShape_of lhs) (schemaToRawShape_of rhs))
  | _ => None
  end.

(** [schemaToRawShape(schema: ZodType | undefined)]. *)
Definition schemaToRawShape (schema : option ZodType) : option ZodRawShape :=
  match schema with
  | Some s => schemaToRawShape_of s
  | None => None
  end.

(** [field.description || null]: an empty description counts as none. *)
Definition description_or_null (field : ZodType) : option string :=
  match description_of field with
  | Some d => if JsString.truthy d then Some d else None
  | None => None
  end.

(** [a ?? b]. *)
Definition nullish_or {A : Type} (a b : option A) : option A :=
  match a with Some _ => a | None => b end.

(** [description ? `: ${description}` : ""]. *)
Definition render_description (o : option string) : string :=
  match o with
  | Some d => if JsString.truthy d then ": " ++ d else EmptyString
  | None => EmptyString
  end.

(** [defaultValue ? ` (default: ${defaultValue})` : ""]. *)
Definition render_default (o : option string) : string :=
  match o with
  | Some j => if JsString.truthy j then " (default: " ++ j ++ ")"
              else EmptyString
  | None => EmptyString
  end.

(** [formatParameterDescription(key, field, description, isOptional,
    defaultValue)]. *)
Fixpoint formatParameterDescription (key : string) (field : ZodType)
    (description : option string) (isOptional : bool)
    (defaultValue : option string) {struct field} : string :=
  let description := nullish_or description (description_or_null field) in
  match field with
  | ZodOptional _ inner =>
      formatParameterDescription key inner description true defaultValue
  | ZodDefault _ inner dv =>
      formatParameterDescription key inner description true
        (Some (Json.stringify dv))
  | _ =>
      "- " ++ key ++ " (" ++ getReadableTypeName field ++ ")"
        ++ (if isOptional then EmptyString else " *required*")
        ++ render_description description
        ++ render_default defaultValue
  end.

(* ===================================================================== *)
(** ** Tool specifications (ToolParams of ./types) *)
(* ===================================================================== *)

(** Modelled from the spec: the [ToolParams] type of ./types is not part of
    the sources at hand.  Section 3 lists its fields (ToolSpec,
    ParameterSpec, ExampleSpec); the optional ones are [option]s, as
    server.ts reads them with [??], [?.] and truthiness tests. *)
Record ToolParameter : Type := mkToolParameter {
  p_name : string;
  p_type : ZodType;
  p_required : bool;
  p_description : option string;
  p_examples : option (list string);
  p_constraints : option (list string)
}.

Record ToolExample : Type := mkToolExample {
  ex_description : string;
  ex_parameters : JsValue;
  ex_expectedOutput : option string
}.

Record ToolParams : Type := mkToolParams {
  title : string;
  summary : string;
  parameters : option (list ToolParameter);
  inputSchema : option ZodType;
  outputSchema : option ZodType;
  useCases : option (list string);
  examples : option (list ToolExample);
  hints : option (list string);
  outputDescription : option string;
  readOnly : option bool;
  destructive : option bool;
  idempotent : option bool;
  openWorld : option bool
}.

Module Description.
Import JsString.

Definition nl : string := String (ascii_of_nat 10) EmptyString.
Definition fence : string :=
  let b := ascii_of_nat 96 in String b (String b (String b EmptyString)).

(** Truthiness of an optional string. *)
Definition present (o : option string) : bool :=
  match o with Some s => truthy s | None => false end.

Definition text (o : option string) : string :=
  match o with Some s => s | None => EmptyString end.

(** [l.map((x, i) => f(x, i))] with [i] counted from [start]. *)
Fixpoint mapi_from {A B : Type} (start : nat) (f : A -> nat -> B)
    (l : list A) : list B :=
  match l with
  | [] => []
  | x :: l' => f x start :: mapi_from (S start) f l'
  end.

Definition numbered (l : list string) : string :=
  join " " (mapi_from 0 (fun s i => of_nat (i + 1) ++ ". " ++ s) l).

(** One line (and its constraint bullets) of the explicit parameter list. *)
Definition parameter_line (p : ToolParameter) : string :=
  "- " ++ p_name p ++ " (" ++ getReadableTypeName (p_type p) ++ ")"
    ++ (if p_required p then " *required*" else EmptyString)
    ++ (if present (p_description p)
        then ": " ++ text (p_description p) else EmptyString)
    ++ match p_examples p with
       | Some exs => " (e.g. " ++ join ", " exs ++ ")"
       | None => EmptyString
       end
    ++ match p_constraints p with
       | Some cs => nl ++ "  - " ++ join (nl ++ "  - ") cs
       | None => EmptyString
       end.

Definition parameters_section (ps : option (list ToolParameter)) : string :=
  match ps with
  | Some ((_ :: _) as l) =>
      nl ++ nl ++ "**Parameters:**" ++ nl ++ join nl (map parameter_line l)
  | _ => EmptyString
  end.

(** [Object.keys(shape).map((key) => formatParameterDescription(key,
    shape[key]))]: one line per key of the shape. *)
Definition schema_lines (shape : ZodRawShape) : list string :=
  map (fun kv => formatParameterDescription (fst kv) (snd kv)
                   None false None)
      (obj_entries shape).

Definition inputSchema_section (schema : option ZodType) : string :=
  match schema with
  | Some (ZodObject _ shape) =>
      nl ++ nl ++ "**Parameters:**" ++ nl ++ join nl (schema_lines shape)
  | _ => EmptyString
  end.

Definition outputDescription_section (o : option string) : string :=
  if present o then nl ++ nl ++ "**Output Description:** " ++ text o
  else EmptyString.

Definition useCases_section (o : option (list string)) : string :=
  match o with
  | Some ((_ :: _) as l) => nl ++ nl ++ "**Use Cases:** " ++ numbered l
  | _ => EmptyString
  end.

Definition example_block (ex : ToolExample) (idx : nat) : string :=
  of_nat (idx + 1) ++ ". " ++ ex_description ex ++ nl
    ++ fence ++ "json" ++ nl
    ++ Json.stringify_pretty (ex_parameters ex) ++ nl
    ++ fence
    ++ (if present (ex_expectedOutput ex)
        then nl ++ "Expected Output: " ++ text (ex_expectedOutput ex)
        else EmptyString).

Definition examples_section (o : option (list ToolExample)) : string :=
  match o with
  | Some ((_ :: _) as l) =>
      nl ++ nl ++ "**Examples:**" ++ nl
         ++ join (nl ++ nl) (mapi_from 0 example_block l)
  | _ => EmptyString
  end.

Definition hints_section (o : option (list string)) : string :=
  match o with
  | Some ((_ :: _) as l) => nl ++ nl ++ "**Hints:** " ++ numbered l
  | _ => EmptyString
  end.
End Description.

(** [getDescription(params)]: the sections appended to the summary in
    source order, then trimmed. *)
Definition getDescription (params : ToolParams) : string :=
  JsString.trim
    (summary params
       ++ Description.parameters_section (parameters params)
       ++ Description.inputSchema_section (inputSchema params)
       ++ Description.outputDescription_section (outputDescription params)
       ++ Description.useCases_section (useCases params)
       ++ Description.examples_section (examples params)
       ++ Description.hints_section (hints params)).

(* ===================================================================== *)
(** ** Registration artifacts other than the description *)
(* ===================================================================== *)

(** Modelled from the spec: the [Client] interface of ./types is not part
    of the sources at hand.  Section 6 gives [name], [toolPrefix] and
    [isConfigured() -> bool]; the latter is the answer the client gives
    when the wrapper asks. *)
Record Client : Type := mkClient {
  name : string;
  toolPrefix : string;
  isConfigured : bool
}.

Definition rawToolName (prefix ttl : string) : string :=
  prefix ++ "_" ++ JsString.toLowerCase (JsString.replaceWhitespaceRuns ttl).

(** [rawToolName.length > 64 ? rawToolName.slice(0, 64) : rawToolName]. *)
Definition toolName (prefix ttl : string) : string :=
  let raw := rawToolName prefix ttl in
  if Nat.ltb 64 (String.length raw) then JsString.slice0 64 raw else raw.

Definition toolTitle (client : Client) (params : ToolParams) : string :=
  name client ++ ": " ++ title params.

Record ToolAnnotations : Type := mkToolAnnotations {
  a_title : string;
  readOnlyHint : bool;
  destructiveHint : bool;
  idempotentHint : bool;
  openWorldHint : bool
}.

Definition getAnnotations (ttl : string) (params : ToolParams)
  : ToolAnnotations :=
  let dflt (o : option bool) (d : bool) :=
    match o with Some b => b | None => d end in
  {| a_title := ttl;
     readOnlyHint := dflt (readOnly params) true;
     destructiveHint := dflt (destructive params) false;
     idempotentHint := dflt (idempotent params) true;
     openWorldHint := dflt (openWorld params) false |}.

(** [schema.describe(d)]: the same node registered with description [d]. *)
Definition describe (z : ZodType) (d : string) : ZodType :=
  match z with
  | ZodString _ => ZodString (Some d)
  | ZodNumber _ => ZodNumber (Some d)
  | ZodBoolean _ => ZodBoolean (Some d)
  | ZodArray _ e => ZodArray (Some d) e
  | ZodObject _ sh => ZodObject (Some d) sh
  | ZodRecord _ k v => ZodRecord (Some d) k v
  | ZodEnum _ es => ZodEnum (Some d) es
  | ZodLiteral _ vs => ZodLiteral (Some d) vs
  | ZodUnion _ os => ZodUnion (Some d) os
  | ZodIntersection _ l r => ZodIntersection (Some d) l r
  | ZodOptional _ i => ZodOptional (Some d) i
  | ZodDefault _ i dv => ZodDefault (Some d) i dv
  | ZodAny _ => ZodAny (Some d)
  | ZodOther _ c => ZodOther (Some d) c
  end.

(** The entry [getInputSchema] ends up storing under [param.name]; its
    successive assignments to that key are folded into the last one. *)
Definition parameter_schema (p : ToolParameter) : ZodType :=
  let t := p_type p in
  let t := if Description.present (p_description p)
           then describe t (Description.text (p_description p)) else t in
  if p_required p then t else ZodOptional None t.

Definition getInputSchema (params : ToolParams) : ZodRawShape :=
  let args :=
    fold_left (fun acc p => obj_set (p_name p) (parameter_schema p) acc)
      (match parameters params with Some l => l | None => [] end) [] in
  spread2 (Some args) (schemaToRawShape (inputSchema params)).

Definition getOutputSchema (params : ToolParams) : option ZodRawShape :=
  schemaToRawShape (outputSchema params).

(* ===================================================================== *)
(** ** The invocation wrapper *)
(* ===================================================================== *)

(** Modelled from the spec: the [ToolError] class of ./tools is not part of
    the sources at hand.  Section 7 names it the domain error "raised by
    the client callback to signal an expected, user-facing failure"; every
    other thrown value is a [PlainError] here. *)
Inductive Thrown : Type :=
| ToolError (message : string)
| PlainError (message : string).

Inductive ContentBlock : Type :=
| TextContent (text : string)
| OtherContent (kind : string) (payload : JsValue).

Record CallToolResult : Type := mkCallToolResult {
  isError : option bool;
  content : option (list ContentBlock);
  structuredContent : option (list (string * JsValue))
}.

(** What the callback's promise resolves to. *)
Inductive Resolved : Type :=
| ResolvedUndefined
| ResolvedNull
| ResolvedResult (r : CallToolResult).

(** An event as the telemetry sink records it after the configuring
    callback has run. *)
Record BugsnagEvent : Type := mkBugsnagEvent {
  ev_error : Thrown;
  ev_metadata : list (string * list (string * string));
  ev_unhandled : bool
}.

Record World : Type := mkWorld {
  notifications : list BugsnagEvent;
  callback_calls : list (JsValue * JsValue)
}.

Inductive Outcome (A : Type) : Type :=
| Returns (a : A)
| Throws (e : Thrown).
Arguments Returns {A} a.
Arguments Throws {A} e.

Module Eff.
Definition M (A : Type) : Type := World -> Outcome A * World.

Definition ret {A} (a : A) : M A := fun w => (Returns a, w).
Definition throw {A} (e : Thrown) : M A := fun w => (Throws e, w).

Definition bind {A B} (c : M A) (k : A -> M B) : M B :=
  fun w =>
    match c w with
    | (Returns a, w') => k a w'
    | (Throws e, w') => (Throws e, w')
    end.

Definition try_catch {A} (body : M A) (handler : Thrown -> M A) : M A :=
  fun w =>
    match body w with
    | (Returns a, w') => (Returns a, w')
    | (Throws e, w') => handler e w'
    end.

(** Modelled from the spec: the sink of ../common/bugsnag is not part of
    the sources at hand.  Section 6: [notify(error, configureEvent)], where
    [configureEvent] attaches metadata to the event and marks it; the sink
    is append-only.  Each call appends the configured event. *)
Definition notify (e : Thrown) (configure : BugsnagEvent -> BugsnagEvent)
  : M unit :=
  fun w =>
    (Returns tt,
     {| notifications :=
          notifications w
            ++ [configure {| ev_error := e; ev_metadata := [];
                             ev_unhandled := false |}];
        callback_calls := callback_calls w |}).

Definition addMetadata (section : string) (data : list (string * string))
    (ev : BugsnagEvent) : BugsnagEvent :=
  {| ev_error := ev_error ev;
     ev_metadata := ev_metadata ev ++ [(section, data)];
     ev_unhandled := ev_unhandled ev |}.

Definition set_unhandled (b : bool) (ev : BugsnagEvent) : BugsnagEvent :=
  {| ev_error := ev_error ev;
     ev_metadata := ev_metadata ev;
     ev_unhandled := b |}.
End Eff.

Import Eff.

Notation "x <- c ;; k" := (bind c (fun x => k))
  (at level 61, c at next level, right associativity).
Notation "c ;;; k" := (bind c (fun _ => k))
  (at level 61, right associativity).

(** The client-supplied callback [cb(args, extra)]. *)
Definition Callback : Type := JsValue -> JsValue -> M Resolved.

(** A callback instrumented like a test double: it records each call
    before behaving as [cb]. *)
Definition spy (cb : Callback) : Callback :=
  fun args extra w =>
    cb args extra
       {| notifications := notifications w;
          callback_calls := callback_calls w ++ [(args, extra)] |}.

Definition is_truthy (o : option bool) : bool :=
  match o with Some true => true | _ => false end.

Definition contract_message (params : ToolParams) : string :=
  "The result of the tool '" ++ title params
    ++ "' must include 'structuredContent'".

Definition validateCallbackResult (result : CallToolResult)
    (params : ToolParams) : M unit :=
  if is_truthy (isError result) then ret tt
  else
    match outputSchema params, structuredContent result with
    | Some _, None => throw (PlainError (contract_message params))
    | _, _ => ret tt
    end.

(** [!result.content?.length]. *)
Definition content_is_empty (result : CallToolResult) : bool :=
  match content result with
  | None | Some [] => true
  | Some (_ :: _) => false
  end.

(** [addStructuredContentAsText] mutates [result]; the updated record is
    what every later read of [result] sees. *)
Definition addStructuredContentAsText (result : CallToolResult)
  : CallToolResult :=
  match structuredContent result with
  | Some sc =>
      if content_is_empty result
      then {| isError := isError result;
              content := Some [TextContent (Json.stringify (JsObject sc))];
              structuredContent := structuredContent result |}
      else result
  | None => result
  end.

Definition not_configured_message (client : Client) : string :=
  "The tool is not configured - configuration options for "
    ++ name client ++ " are missing or invalid.".

Definition error_result (client : Client) (params : ToolParams)
    (msg : string) : CallToolResult :=
  {| isError := Some true;
     content := Some [TextContent ("Error executing "
                                     ++ toolTitle client params
                                     ++ ": " ++ msg)];
     structuredContent := None |}.

(** The handler registered for the tool: the body of the [async (args,
    extra) => ...] closure in [addClient]. *)
Definition invoke (client : Client) (params : ToolParams) (cb : Callback)
    (args extra : JsValue) : M Resolved :=
  try_catch
    (if negb (isConfigured client)
     then throw (ToolError (not_configured_message client))
     else
       result <- cb args extra ;;
       match result with
       | ResolvedResult r =>
           validateCallbackResult r params ;;;
           ret (ResolvedResult (addStructuredContentAsText r))
       | _ => ret result
       end)
    (fun e =>
       match e with
       | ToolError m => ret (ResolvedResult (error_result client params m))
       | _ =>
           notify e
             (fun event =>
                set_unhandled true
                  (addMetadata "app"
                     [("tool", toolName (toolPrefix client) (title params))]
                     event)) ;;;
           throw e
       end).

(** The world after exactly one report of [e] for this tool. *)
Definition reported (client : Client) (params : ToolParams) (e : Thrown)
    (w : World) : World :=
  {| notifications :=
       notifications w
         ++ [{| ev_error := e;
                ev_metadata :=
                  [("app",
                    [("tool", toolName (toolPrefix client) (title params))])];
                ev_unhandled := true |}];
     callback_calls := callback_calls w |}.

Record RegisteredTool : Type := mkRegisteredTool {
  rt_name : string;
  rt_title : string;
  rt_description : string;
  rt_inputSchema : ZodRawShape;
  rt_outputSchema : option ZodRawShape;
  rt_annotations : ToolAnnotations;
  rt_invoke : JsValue -> JsValue -> M Resolved
}.

(** The registration callback handed to [client.registerTools]. *)
Definition registerTool (client : Client) (params : ToolParams)
    (cb : Callback) : RegisteredTool :=
  {| rt_name := toolName (toolPrefix client) (title params);
     rt_title := toolTitle client params;
     rt_description := getDescription params;
     rt_inputSchema := getInputSchema params;
     rt_outputSchema := getOutputSchema params;
     rt_annotations := getAnnotations (toolTitle client params) params;
     rt_invoke := invoke client params cb |}.

(* ===================================================================== *)
(** ** The schema introspector as the specification words it *)
(* ===================================================================== *)

(** Section 4.2 describes [unwrap(node) -> (innerNode, isOptional,
    defaultValue?)]: it strips the wrappers, "accumulating optionality
    (true if any optional wrapper was seen) and the innermost default value
    if present".  These definitions follow those words; the theorems below
    compare them with [formatParameterDescription]. *)
Module Spec.

Fixpoint seen_optional (z : ZodType) : bool :=
  match z with
  | ZodOptional _ _ => true
  | ZodDefault _ inner _ => seen_optional inner
  | _ => false
  end.

Fixpoint innermost_default (z : ZodType) : option JsValue :=
  match z with
  | ZodOptional _ inner => innermost_default inner
  | ZodDefault _ inner dv =>
      match innermost_default inner with
      | Some d => Some d
      | None => Some dv
      end
  | _ => None
  end.

Definition unwrap (z : ZodType) : ZodType * bool * option JsValue :=
  (unwrapZodType z, seen_optional z, innermost_default z).

(** The description shown for a field: the outermost non-empty one on the
    way down through the wrappers. *)
Fixpoint first_description (z : ZodType) : option string :=
  nullish_or (description_or_null z)
    match z with
    | ZodOptional _ inner => first_description inner
    | ZodDefault _ inner _ => first_description inner
    | _ => None
    end.

Definition is_some {A : Type} (o : option A) : bool :=
  match o with Some _ => true | None => false end.

(** The line of Section 4.4, item 3. *)
Definition field_line (key : string) (field : ZodType) : string :=
  let '(inner, isOptional, dflt) := unwrap field in
  "- " ++ key ++ " (" ++ getReadableTypeName inner ++ ")"
    ++ (if isOptional || is_some dflt then EmptyString else " *required*")
    ++ match first_description field with
       | Some d => ": " ++ d
       | None => EmptyString
       end
    ++ match dflt with
       | Some dv => " (default: " ++ Json.stringify dv ++ ")"
       | None => EmptyString
       end.

(** The fixed label set of [readableTypeName]. *)
Inductive ReadableLabel : string -> Prop :=
| label_string : ReadableLabel "string"
| label_number : ReadableLabel "number"
| label_boolean : ReadableLabel "boolean"
| label_array : ReadableLabel "array"
| label_object : ReadableLabel "object"
| label_enum : ReadableLabel "enum"
| label_literal : ReadableLabel "literal"
| label_union : ReadableLabel "union"
| label_any : ReadableLabel "any"
| label_record (k v : string) :
    ReadableLabel k -> ReadableLabel v ->
    ReadableLabel ("record<" ++ k ++ ", " ++ v ++ ">").

(** A kind outside the [instanceof] chain of [getReadableTypeName]. *)
Definition unrecognized (z : ZodType) : bool :=
  match z with
  | ZodString _ | ZodNumber _ | ZodBoolean _ | ZodArray _ _ | ZodObject _ _
  | ZodRecord _ _ _ | ZodEnum _ _ | ZodLiteral _ _ | ZodUnion _ _
  | ZodOptional _ _ | ZodDefault _ _ _ | ZodAny _ => false
  | ZodIntersection _ _ _ | ZodOther _ _ => true
  end.

(** Shapes of a title used to say what "a run of whitespace" is. *)
Fixpoint all_whitespace (s : string) : bool :=
  match s with
  | EmptyString => true
  | String c s' => JsString.isWhiteSpace c && all_whitespace s'
  end.

Fixpoint no_whitespace (s : string) : bool :=
  match s with
  | EmptyString => true
  | String c s' => negb (JsString.isWhiteSpace c) && no_whitespace s'
  end.

Definition starts_with_whitespace (s : string) : bool :=
  match s with
  | EmptyString => false
  | String c _ => JsString.isWhiteSpace c
  end.

End Spec.

(* ===================================================================== *)
(** ** Resource registration *)
(* ===================================================================== *)

(** [`${client.toolPrefix}://${name}/${path}`]. *)
Definition resourceUri (client : Client) (resourceName path : string)
  : string :=
  toolPrefix client ++ "://" ++ resourceName ++ "/" ++ path.

(** The client-supplied resource callback [cb(url, variables, extra)]; the
    requested URL is held by its text, and [R] is whatever the callback
    resolves to. *)
Definition ResourceCallback (R : Type) : Type :=
  string -> JsValue -> JsValue -> M R.

(** The handler registered for a resource: the body of the [async (url,
    variables, extra) => ...] closure in [addClient].  Its [url] parameter
    shadows the template, so the metadata holds the requested URL. *)
Definition readResource {R : Type} (resourceName : string)
    (cb : ResourceCallback R) (url : string) (variables extra : JsValue)
  : M R :=
  try_catch
    (cb url variables extra)
    (fun e =>
       notify e
         (fun event =>
            set_unhandled true
              (addMetadata "app"
                 [("resource", resourceName); ("url", url)] event)) ;;;
       throw e).

Record RegisteredResource (R : Type) : Type := mkRegisteredResource {
  rr_name : string;
  rr_uriTemplate : string;
  rr_read : string -> JsValue -> JsValue -> M R
}.

(** The registration callback handed to [client.registerResources]. *)
Definition registerResource {R : Type} (client : Client)
    (resourceName path : string) (cb : ResourceCallback R)
  : RegisteredResource R :=
  {| rr_name := resourceName;
     rr_uriTemplate := resourceUri client resourceName path;
     rr_read := readResource resourceName cb |}.

(** The world after exactly one report of [e] for this resource. *)
Definition reported_resource (resourceName url : string) (e : Thrown)
    (w : World) : World :=
  {| notifications :=
       notifications w
         ++ [{| ev_error := e;
                ev_metadata :=
                  [("app", [("resource", resourceName); ("url", url)])];
                ev_unhandled := true |}];
     callback_calls := callback_calls w |}.

(* ===================================================================== *)
(** ** Vocabulary for the further properties *)
(* ===================================================================== *)

(** The world in which one more call of the callback has been recorded. *)
Definition record_call (args extra : JsValue) (w : World) : World :=
  {| notifications := notifications w;
     callback_calls := callback_calls w ++ [(args, extra)] |}.

(** When [validateCallbackResult] lets a result through. *)
Definition passes_contract (r : CallToolResult) (params : ToolParams)
  : bool :=
  is_truthy (isError r)
  || match outputSchema params, structuredContent r with
     | Some _, None => false
     | _, _ => true
     end.

(** The last explicit parameter called [k], if any. *)
Fixpoint last_parameter (k : string) (ps : list ToolParameter)
  : option ToolParameter :=
  match ps with
  | [] => None
  | p :: ps' =>
      match last_parameter k ps' with
      | Some q => Some q
      | None => if String.eqb (p_name p) k then Some p else None
      end
  end.

(** A ToolSpec in which every empty optional list or text is left out. *)
Definition without_empty_fields (p : ToolParams) : ToolParams :=
  let list_of {A : Type} (o : option (list A)) :=
    match o with Some [] => None | _ => o end in
  {| title := title p; summary := summary p;
     parameters := list_of (parameters p);
     inputSchema := inputSchema p; outputSchema := outputSchema p;
     useCases := list_of (useCases p);
     examples := list_of (examples p);
     hints := list_of (hints p);
     outputDescription :=
       match outputDescription p with
       | Some EmptyString => None
       | o => o
       end;
     readOnly := readOnly p; destructive := destructive p;
     idempotent := idempotent p; openWorld := openWorld p |}.

(** Whether a schema node is an optional or default wrapper. *)
Definition is_wrapper (z : ZodType) : bool :=
  match z with
  | ZodOptional _ _ | ZodDefault _ _ _ => true
  | _ => false
  end.

(* ===================================================================== *)
(** ** Fixtures taken from the unit tests (server.test.ts) *)
(* ===================================================================== *)

Module Fixtures.

Definition mockClient : Client :=
  {| name := "Test Product"; toolPrefix := "test_product";
     isConfigured := true |}.

Definition unconfiguredClient : Client :=
  {| name := "Test Product"; toolPrefix := "test_product";
     isConfigured := false |}.

Definition bare (ttl smry : string) : ToolParams :=
  {| title := ttl; summary := smry; parameters := None;
     inputSchema := None; outputSchema := None; useCases := None;
     examples := None; hints := None; outputDescription := None;
     readOnly := None; destructive := None; idempotent := None;
     openWorld := None |}.

Definition with_schemas (p : ToolParams) (i o : option ZodType)
  : ToolParams :=
  {| title := title p; summary := summary p; parameters := parameters p;
     inputSchema := i; outputSchema := o; useCases := useCases p;
     examples := examples p; hints := hints p;
     outputDescription := outputDescription p; readOnly := readOnly p;
     destructive := destructive p; idempotent := idempotent p;
     openWorld := openWorld p |}.

Definition testTool : ToolParams := bare "Test Tool" "A test tool".

(** [z.object({ values: z.array(z.object({id, name})).describe(..) })]. *)
Definition valuesSchema : ZodType :=
  ZodObject None
    [("values",
      ZodArray (Some "List of values")
        (ZodObject None [("id", ZodString None); ("name", ZodString None)]))].

Definition getValues : ToolParams :=
  with_schemas (bare "Get values" "Tool using output schema")
    None (Some valuesSchema).

Definition searchInput : ZodType :=
  ZodObject None
    [("p1", ZodString (Some "param-required-string"));
     ("p2", ZodOptional None (ZodNumber (Some "param-optional-number")));
     ("p3", ZodDefault None (ZodNumber (Some "param-defaulted-number"))
              (JsNumber 1));
     ("p4", ZodDefault (Some "param-defaulted-bool-described-after")
              (ZodBoolean None) (JsBool false))].

Definition searchValues : ToolParams :=
  with_schemas (bare "Search values" "Tool using input and output schemas")
    (Some searchInput) (Some valuesSchema).

(** An input schema built with [.and()]: the intersection of two objects. *)
Definition intersectionInput : ZodType :=
  ZodIntersection None
    (ZodObject None [("a", ZodString None)])
    (ZodObject None [("b", ZodNumber None)]).

Definition intersectionTool : ToolParams :=
  with_schemas testTool (Some intersectionInput) None.

Definition param (n : string) (t : ZodType) (req : bool)
    (dsc : option string) : ToolParameter :=
  {| p_name := n; p_type := t; p_required := req; p_description := dsc;
     p_examples := None; p_constraints := None |}.

(** The tool of "should register tools with complex parameters". *)
Definition complexTool : ToolParams :=
  {| title := "Test Tool"; summary := "A test tool";
     parameters :=
       Some [{| p_name := "p1"; p_type := ZodString None;
                p_required := true;
                p_description := Some "The input for the tool";
                p_examples := Some ["example1"; "example2"];
                p_constraints := Some ["constraint1"; "constraint2"] |};
             param "p2" (ZodNumber None) false
               (Some "The optional numeric input for the tool");
             param "p3" (ZodBoolean None) true None;
             param "p4" (ZodArray None (ZodString None)) true None;
             param "p5" (ZodObject None [("key1", ZodString None);
                                         ("key2", ZodNumber None)])
               true None;
             param "p6" (ZodEnum None ["value1"; "value2"; "value3"])
               true None;
             param "p7" (ZodLiteral None [JsStr "value"]) true None;
             param "p8" (ZodUnion None [ZodLiteral None [JsStr "value1"];
                                        ZodLiteral None [JsStr "value2"]])
               true None;
             param "p9" (ZodAny None) true None];
     inputSchema := None; outputSchema := None;
     useCases := Some ["Testing"; "Development"];
     examples :=
       Some [{| ex_description := "Example 1";
                ex_parameters := JsObject [("p1", JsStr "example1");
                                           ("p2", JsNumber 42)];
                ex_expectedOutput := Some "Expected output for example 1" |};
             {| ex_description := "Example 2";
                ex_parameters := JsObject [("p1", JsStr "example2");
                                           ("p2", JsNumber 24)];
                ex_expectedOutput := None |}];
     hints := Some ["First hint"; "Second hint"];
     outputDescription := Some "The output description";
     readOnly := Some true; destructive := Some true;
     idempotent := Some true; openWorld := Some true |}.

(** A double quote, for the JSON texts the tests expect. *)
Definition q : string := String Json.dquote EmptyString.

(** An object schema whose only field has a description that ends with a
    space. *)
Definition trailingSpaceTool : ToolParams :=
  with_schemas testTool
    (Some (ZodObject None [("k", ZodString (Some "x "))])) None.

Definition emptyWorld : World :=
  {| notifications := []; callback_calls := [] |}.

Definition throwing (e : Thrown) : Callback := fun _ _ => throw e.
Definition resolving (v : Resolved) : Callback := fun _ _ => ret v.

Definition noArgs : JsValue := JsObject [].

Definition longTitle : string :=
  "This is a really long tool title that should be truncated by the server".

End Fixtures.

(* ===================================================================== *)
(** * Theorems *)
(* ===================================================================== *)

(** ** Strings *)

Section StringFacts.
Import JsString.

Lemma append_assoc (a b c : string) : (a ++ b) ++ c = a ++ (b ++ c).
Proof. induction a as [|x a IH]; simpl; [reflexivity | now rewrite IH]. Qed.

Lemma append_nil_r (a : string) : a ++ EmptyString = a.
Proof. induction a as [|x a IH]; simpl; [reflexivity | now rewrite IH]. Qed.

Lemma prefix_append (a b : string) : String.prefix a (a ++ b) = true.
Proof.
  induction a as [|x a IH]; simpl.
  - destruct b; reflexivity.
  - destruct (ascii_dec x x) as [_|N]; [exact IH | now elim N].
Qed.

Lemma includes_prefix (needle hay : string) :
  String.prefix needle hay = true -> includes needle hay = true.
Proof. destruct hay; simpl; intros ->; reflexivity. Qed.

Lemma includes_append (needle pre post : string) :
  includes needle (pre ++ needle ++ post) = true.
Proof.
  induction pre as [|x pre IH].
  - cbn [append]. apply includes_prefix, prefix_append.
  - simpl. rewrite IH. apply orb_true_r.
Qed.

Lemma slice0_all (n : nat) (s : string) :
  String.length s <= n -> slice0 n s = s.
Proof.
  unfold slice0. revert n.
  induction s as [|x s IH]; intros [|n] H; simpl in *; try reflexivity.
  - lia.
  - rewrite IH by lia. reflexivity.
Qed.

Lemma slice0_length (n : nat) (s : string) :
  String.length (slice0 n s) = Nat.min n (String.length s).
Proof.
  unfold slice0. revert n.
  induction s as [|x s IH]; intros [|n]; simpl; try reflexivity.
  now rewrite IH.
Qed.

Lemma prefix_nil (s : string) : String.prefix EmptyString s = true.
Proof. destruct s; reflexivity. Qed.

Lemma prefix_all_whitespace (n s : string) :
  String.prefix n s = true ->
  Spec.all_whitespace s = true -> Spec.all_whitespace n = true.
Proof.
  revert s. induction n as [|c n IH]; intros [|x s]; simpl;
    try reflexivity; try discriminate.
  destruct (ascii_dec c x) as [->|]; [| discriminate].
  intros P W. apply andb_prop in W. destruct W as [Wx Ws].
  rewrite Wx. simpl. apply (IH s); assumption.
Qed.

Lemma all_whitespace_not_solid (n : string) :
  Spec.all_whitespace n = true -> ends_solid n = false.
Proof.
  unfold ends_solid. induction n as [|c n IH]; simpl; [reflexivity |].
  intros W. apply andb_prop in W. destruct W as [Wc Wn].
  destruct n as [|c' n']; [rewrite Wc; reflexivity | apply IH, Wn].
Qed.

Lemma includes_all_whitespace (n s : string) :
  includes n s = true ->
  Spec.all_whitespace s = true -> Spec.all_whitespace n = true.
Proof.
  induction s as [|x s IH]; simpl; intros I W.
  - rewrite orb_false_r in I. destruct n; [reflexivity | discriminate].
  - apply orb_prop in I. destruct I as [P | I].
    + apply (@prefix_all_whitespace n (String x s)); [exact P | exact W].
    + apply andb_prop in W. apply IH; tauto.
Qed.

Lemma prefix_before_whitespace (n a ws : string) :
  ends_solid n = true ->
  Spec.all_whitespace ws = true ->
  String.prefix n (a ++ ws) = true -> String.prefix n a = true.
Proof.
  intros S W. revert a S.
  induction n as [|c n IH]; intros a S P; [discriminate |].
  destruct a as [|x a].
  - simpl in P. apply prefix_all_whitespace in P; [| exact W].
    apply all_whitespace_not_solid in P. congruence.
  - simpl in *. destruct (ascii_dec c x); [| discriminate].
    destruct n as [|c' n']; [apply prefix_nil |].
    apply IH; [exact S | exact P].
Qed.

Lemma includes_before_whitespace (n a ws : string) :
  ends_solid n = true ->
  Spec.all_whitespace ws = true ->
  includes n (a ++ ws) = true -> includes n a = true.
Proof.
  intros S W. induction a as [|x a IH]; intros I.
  - simpl in I. apply includes_all_whitespace in I; [| exact W].
    apply all_whitespace_not_solid in I. congruence.
  - change (includes n (String x (a ++ ws)) = true) in I.
    simpl in I. apply orb_prop in I. destruct I as [P | I].
    + apply includes_prefix.
      apply (@prefix_before_whitespace n (String x a) ws S W P).
    + simpl. rewrite (IH I). apply orb_true_r.
Qed.

Lemma trimEnd_decompose (s : string) :
  exists ws, Spec.all_whitespace ws = true /\ s = trimEnd s ++ ws.
Proof.
  induction s as [|c s [ws [W E]]]; simpl.
  - exists EmptyString. split; reflexivity.
  - destruct (trimEnd s) as [|y r] eqn:T.
    + simpl in E. subst s. destruct (isWhiteSpace c) eqn:Wc.
      * exists (String c ws). simpl. rewrite Wc, W. split; reflexivity.
      * exists ws. split; [exact W | reflexivity].
    + exists ws. split; [exact W |]. simpl. rewrite E at 1. reflexivity.
Qed.

Lemma includes_trimEnd (n s : string) :
  ends_solid n = true -> includes n s = true ->
  includes n (trimEnd s) = true.
Proof.
  intros S I. destruct (trimEnd_decompose s) as [ws [W E]].
  rewrite E in I. exact (@includes_before_whitespace n _ ws S W I).
Qed.

Lemma includes_trimStart (n s : string) :
  starts_solid n = true -> includes n s = true ->
  includes n (trimStart s) = true.
Proof.
  intros S. induction s as [|x s IH]; intros I; [exact I |].
  simpl. destruct (isWhiteSpace x) eqn:Wx; [| exact I].
  apply IH. simpl in I. apply orb_prop in I. destruct I as [P | I];
    [| exact I].
  destruct n as [|c n]; [discriminate |]. simpl in P, S.
  destruct (ascii_dec c x) as [->|]; [| discriminate].
  rewrite Wx in S. discriminate.
Qed.

(** An occurrence of a solid text survives [trim]. *)
Lemma includes_trim (n s : string) :
  starts_solid n = true -> ends_solid n = true ->
  includes n s = true -> includes n (trim s) = true.
Proof.
  intros S E I. unfold trim.
  apply includes_trimEnd; [exact E |].
  apply includes_trimStart; assumption.
Qed.

End StringFacts.

(** ** The invocation wrapper *)

Section InvocationWrapper.

Variable client : Client.
Variable params : ToolParams.
Variable cb : Callback.
Variables args extra : JsValue.

Lemma invoke_not_configured (w : World) :
  isConfigured client = false ->
  invoke client params cb args extra w =
    (Returns (ResolvedResult
                (error_result client params (not_configured_message client))),
     w).
Proof. intros H. unfold invoke, try_catch. rewrite H. reflexivity. Qed.

Lemma invoke_callback_throws (w w' : World) (e : Thrown) :
  isConfigured client = true ->
  cb args extra w = (Throws e, w') ->
  invoke client params cb args extra w =
    match e with
    | ToolError m =>
        (Returns (ResolvedResult (error_result client params m)), w')
    | _ => (Throws e, reported client params e w')
    end.
Proof.
  intros Hc Hcb. unfold invoke, try_catch, bind. rewrite Hc. simpl.
  rewrite Hcb. destruct e; reflexivity.
Qed.

Lemma invoke_callback_resolves (w w' : World) (r : CallToolResult) :
  isConfigured client = true ->
  cb args extra w = (Returns (ResolvedResult r), w') ->
  invoke client params cb args extra w =
    match validateCallbackResult r params w' with
    | (Returns _, w'') =>
        (Returns (ResolvedResult (addStructuredContentAsText r)), w'')
    | (Throws (ToolError m), w'') =>
        (Returns (ResolvedResult (error_result client params m)), w'')
    | (Throws e, w'') => (Throws e, reported client params e w'')
    end.
Proof.
  intros Hc Hcb. unfold invoke, try_catch, bind. rewrite Hc. simpl.
  rewrite Hcb.
  destruct (validateCallbackResult r params w') as [[u|e] w''];
    [reflexivity | destruct e; reflexivity].
Qed.

End InvocationWrapper.

(** C2. When the configuration check or the callback raises a ToolError
    with message [m], the wrapper returns the result [{isError: true,
    content: [{type: "text", text: "Error executing " + toolTitle + ": " +
    m}]}], and the world it leaves is the one the raising step left: the
    telemetry sink receives nothing. *)
Theorem C2_tool_error_is_absorbed :
  forall (client : Client) (params : ToolParams) (cb : Callback)
         (args extra : JsValue) (w w' : World) (m : string),
    (isConfigured client = false
     /\ m = not_configured_message client /\ w' = w)
    \/ (isConfigured client = true
        /\ cb args extra w = (Throws (ToolError m), w')) ->
    invoke client params cb args extra w =
      (Returns
         (ResolvedResult
            {| isError := Some true;
               content :=
                 Some [TextContent ("Error executing "
                                      ++ (name client ++ ": " ++ title params)
                                      ++ ": " ++ m)];
               structuredContent := None |}),
       w')
    /\ notifications (snd (invoke client params cb args extra w))
       = notifications w'.
Proof.
  intros client params cb args extra w w' m [[Hc [-> ->]] | [Hc Hcb]].
  - rewrite invoke_not_configured by exact Hc. split; reflexivity.
  - rewrite (@invoke_callback_throws client params cb args extra w w' _ Hc Hcb).
    split; reflexivity.
Qed.

Lemma C2_witness :
  Fixtures.throwing (ToolError "X") Fixtures.noArgs Fixtures.noArgs
      Fixtures.emptyWorld
    = (Throws (ToolError "X"), Fixtures.emptyWorld)
  /\ invoke Fixtures.mockClient Fixtures.testTool
       (Fixtures.throwing (ToolError "X")) Fixtures.noArgs Fixtures.noArgs
       Fixtures.emptyWorld
     = (Returns
          (ResolvedResult
             {| isError := Some true;
                content :=
                  Some [TextContent
                          "Error executing Test Product: Test Tool: X"];
                structuredContent := None |}),
        Fixtures.emptyWorld).
Proof.
  split; [reflexivity |].
  refine (proj1 (@C2_tool_error_is_absorbed Fixtures.mockClient
                   Fixtures.testTool (Fixtures.throwing (ToolError "X"))
                   Fixtures.noArgs Fixtures.noArgs Fixtures.emptyWorld
                   Fixtures.emptyWorld "X" _)).
  right. split; reflexivity.
Defined.

(** C3. When the callback resolves a result that is not an error, the
    ToolSpec declared an outputSchema and the result has no
    structuredContent, the wrapper throws an error whose message is "The
    result of the tool '<title>' must include 'structuredContent'" (so it
    contains "must include 'structuredContent'"), the telemetry sink
    receives exactly one notification, and the outcome is a throw, not an
    isError result. *)
Theorem C3_missing_structured_content_throws :
  forall (client : Client) (params : ToolParams) (cb : Callback)
         (args extra : JsValue) (w w' : World) (r : CallToolResult)
         (schema : ZodType),
    isConfigured client = true ->
    cb args extra w = (Returns (ResolvedResult r), w') ->
    is_truthy (isError r) = false ->
    outputSchema params = Some schema ->
    structuredContent r = None ->
    let msg := "The result of the tool '" ++ title params
                 ++ "' must include 'structuredContent'" in
    invoke client params cb args extra w =
      (Throws (PlainError msg),
       {| notifications :=
            notifications w'
              ++ [{| ev_error := PlainError msg;
                     ev_metadata :=
                       [("app",
                         [("tool",
                           toolName (toolPrefix client) (title params))])];
                     ev_unhandled := true |}];
          callback_calls := callback_calls w' |})
    /\ JsString.includes "must include 'structuredContent'" msg = true
    /\ List.length (notifications (snd (invoke client params cb args extra w)))
       = S (List.length (notifications w')).
Proof.
  intros client params cb args extra w w' r schema Hc Hcb He Ho Hs msg.
  assert (Hinv : invoke client params cb args extra w
                 = (Throws (PlainError msg),
                    reported client params (PlainError msg) w')).
  { rewrite (@invoke_callback_resolves client params cb args extra w w' r
               Hc Hcb).
    unfold validateCallbackResult. rewrite He, Ho, Hs. reflexivity. }
  split; [exact Hinv | split].
  - subst msg.
    replace ("The result of the tool '" ++ title params
               ++ "' must include 'structuredContent'")
      with (("The result of the tool '" ++ title params ++ "' ")
              ++ "must include 'structuredContent'" ++ EmptyString)
      by (rewrite !append_assoc; reflexivity).
    apply includes_append.
  - rewrite Hinv. simpl. rewrite length_app. simpl. lia.
Qed.

Lemma C3_witness :
  invoke Fixtures.mockClient Fixtures.getValues
    (Fixtures.resolving
       (ResolvedResult {| isError := Some false; content := None;
                          structuredContent := None |}))
    Fixtures.noArgs Fixtures.noArgs Fixtures.emptyWorld
  = (Throws
       (PlainError
          "The result of the tool 'Get values' must include 'structuredContent'"),
     {| notifications :=
          [{| ev_error :=
                PlainError
                  "The result of the tool 'Get values' must include 'structuredContent'";
              ev_metadata := [("app", [("tool", "test_product_get_values")])];
              ev_unhandled := true |}];
        callback_calls := [] |}).
Proof.
  refine (proj1 (@C3_missing_structured_content_throws Fixtures.mockClient
                   Fixtures.getValues _ Fixtures.noArgs Fixtures.noArgs
                   Fixtures.emptyWorld Fixtures.emptyWorld _
                   Fixtures.valuesSchema _ _ _ _ _));
    reflexivity.
Defined.

(** C4. When the callback raises an exception that is not a ToolError, the
    wrapper sends exactly one notification carrying that exception, with
    metadata [{app: {tool: toolName}}] and marked unhandled, and re-raises
    the same exception; the outcome is a throw, not an isError result. *)
Theorem C4_unexpected_error_reported_and_rethrown :
  forall (client : Client) (params : ToolParams) (cb : Callback)
         (args extra : JsValue) (w w' : World) (e : Thrown),
    isConfigured client = true ->
    cb args extra w = (Throws e, w') ->
    (forall m, e <> ToolError m) ->
    invoke client params cb args extra w =
      (Throws e,
       {| notifications :=
            notifications w'
              ++ [{| ev_error := e;
                     ev_metadata :=
                       [("app",
                         [("tool",
                           toolName (toolPrefix client) (title params))])];
                     ev_unhandled := true |}];
          callback_calls := callback_calls w' |}).
Proof.
  intros client params cb args extra w w' e Hc Hcb Hne.
  rewrite (@invoke_callback_throws client params cb args extra w w' e Hc Hcb).
  destruct e as [m|m]; [now elim (Hne m) | reflexivity].
Qed.

Lemma C4_witness :
  invoke Fixtures.mockClient Fixtures.testTool
    (spy (Fixtures.throwing (PlainError "Y")))
    Fixtures.noArgs Fixtures.noArgs Fixtures.emptyWorld
  = (Throws (PlainError "Y"),
     {| notifications :=
          [{| ev_error := PlainError "Y";
              ev_metadata := [("app", [("tool", "test_product_test_tool")])];
              ev_unhandled := true |}];
        callback_calls := [(Fixtures.noArgs, Fixtures.noArgs)] |}).
Proof.
  refine (@C4_unexpected_error_reported_and_rethrown Fixtures.mockClient
            Fixtures.testTool _ Fixtures.noArgs Fixtures.noArgs
            Fixtures.emptyWorld
            {| notifications := [];
               callback_calls := [(Fixtures.noArgs, Fixtures.noArgs)] |}
            (PlainError "Y") _ _ _);
    [reflexivity | reflexivity | discriminate].
Defined.

(** C5. When [client.isConfigured()] is false, the wrapper returns an
    isError result whose text embeds "The tool is not configured -
    configuration options for <client.name> are missing or invalid.", and
    the world is left as it was: no telemetry notification is sent and the
    callback, here instrumented to record its calls, is never invoked. *)
Theorem C5_not_configured_short_circuits :
  forall (client : Client) (params : ToolParams) (cb : Callback)
         (args extra : JsValue) (w : World),
    isConfigured client = false ->
    invoke client params (spy cb) args extra w =
      (Returns
         (ResolvedResult
            {| isError := Some true;
               content :=
                 Some [TextContent
                         ("Error executing "
                            ++ (name client ++ ": " ++ title params) ++ ": "
                            ++ ("The tool is not configured - "
                                  ++ "configuration options for "
                                  ++ name client
                                  ++ " are missing or invalid."))];
               structuredContent := None |}),
       w)
    /\ notifications (snd (invoke client params (spy cb) args extra w))
       = notifications w
    /\ callback_calls (snd (invoke client params (spy cb) args extra w))
       = callback_calls w.
Proof.
  intros client params cb args extra w Hc.
  rewrite invoke_not_configured by exact Hc.
  repeat split.
Qed.

Lemma C5_witness :
  invoke Fixtures.unconfiguredClient Fixtures.testTool
    (spy (Fixtures.resolving
            (ResolvedResult {| isError := Some false; content := None;
                               structuredContent := None |})))
    Fixtures.noArgs Fixtures.noArgs Fixtures.emptyWorld
  = (Returns
       (ResolvedResult
          {| isError := Some true;
             content :=
               Some [TextContent
                       "Error executing Test Product: Test Tool: The tool is not configured - configuration options for Test Product are missing or invalid."];
             structuredContent := None |}),
     Fixtures.emptyWorld).
Proof.
  refine (proj1 (@C5_not_configured_short_circuits
                   Fixtures.unconfiguredClient Fixtures.testTool _
                   Fixtures.noArgs Fixtures.noArgs Fixtures.emptyWorld _)).
  reflexivity.
Defined.

(** C9. If structuredContent is present and content is empty (absent or of
    length zero), the result's content becomes exactly one text item
    holding the JSON serialisation of structuredContent, the other fields
    being kept; if content is non-empty or structuredContent is absent, the
    result, and so its content, is unchanged. *)
Theorem C9_structured_content_as_text :
  forall (r : CallToolResult),
    (forall sc,
        structuredContent r = Some sc ->
        content_is_empty r = true ->
        addStructuredContentAsText r =
          {| isError := isError r;
             content := Some [TextContent (Json.stringify (JsObject sc))];
             structuredContent := Some sc |})
    /\ (content_is_empty r = false \/ structuredContent r = None ->
        addStructuredContentAsText r = r).
Proof.
  intros r. unfold addStructuredContentAsText. split.
  - intros sc Hs He. rewrite Hs, He. reflexivity.
  - intros [He | Hs].
    + rewrite He. destruct (structuredContent r); reflexivity.
    + rewrite Hs. reflexivity.
Qed.

Lemma C9_witness :
  addStructuredContentAsText
    {| isError := Some false; content := Some [];
       structuredContent := Some [("count", JsNumber 2)] |}
  = {| isError := Some false;
       content := Some [TextContent (Json.stringify
                                       (JsObject [("count", JsNumber 2)]))];
       structuredContent := Some [("count", JsNumber 2)] |}
  /\ addStructuredContentAsText
       {| isError := None; content := Some [TextContent "kept"];
          structuredContent := Some [("count", JsNumber 2)] |}
     = {| isError := None; content := Some [TextContent "kept"];
          structuredContent := Some [("count", JsNumber 2)] |}.
Proof.
  split.
  - refine (proj1 (C9_structured_content_as_text _) _ _ _); reflexivity.
  - refine (proj2 (C9_structured_content_as_text _) _). left. reflexivity.
Defined.

(** C10. When the client is configured and the callback resolves to null
    or undefined, the wrapper returns that value unchanged, whatever the
    ToolSpec declares: nothing is validated, no content is synthesised, and
    the world is the one the callback left, so the telemetry sink receives
    nothing. *)
Theorem C10_absent_result_passes_through :
  forall (client : Client) (params : ToolParams) (cb : Callback)
         (args extra : JsValue) (w w' : World) (v : Resolved),
    isConfigured client = true ->
    cb args extra w = (Returns v, w') ->
    v = ResolvedNull \/ v = ResolvedUndefined ->
    invoke client params cb args extra w = (Returns v, w')
    /\ notifications (snd (invoke client params cb args extra w))
       = notifications w'.
Proof.
  intros client params cb args extra w w' v Hc Hcb Hv.
  assert (H : invoke client params cb args extra w = (Returns v, w')).
  { unfold invoke, try_catch, bind. rewrite Hc. simpl. rewrite Hcb.
    destruct Hv as [-> | ->]; reflexivity. }
  rewrite H. split; reflexivity.
Qed.

Lemma C10_witness :
  outputSchema Fixtures.getValues = Some Fixtures.valuesSchema
  /\ invoke Fixtures.mockClient Fixtures.getValues
       (Fixtures.resolving ResolvedUndefined)
       Fixtures.noArgs Fixtures.noArgs Fixtures.emptyWorld
     = (Returns ResolvedUndefined, Fixtures.emptyWorld).
Proof.
  split; [reflexivity |].
  refine (proj1 (@C10_absent_result_passes_through Fixtures.mockClient
                   Fixtures.getValues _ Fixtures.noArgs Fixtures.noArgs
                   Fixtures.emptyWorld Fixtures.emptyWorld ResolvedUndefined
                   _ _ _)).
  - reflexivity.
  - reflexivity.
  - right. reflexivity.
Defined.

(** ** The name normaliser *)

Section NameNormalizer.
Import JsString.

Lemma replace_runs_word (word rest : string) :
  Spec.no_whitespace word = true ->
  replace_runs false (word ++ rest) = word ++ replace_runs false rest.
Proof.
  induction word as [|c word IH]; simpl; intros H; [reflexivity |].
  apply andb_prop in H. destruct H as [Hc Hw].
  apply negb_true_iff in Hc. rewrite Hc, IH by exact Hw. reflexivity.
Qed.

Lemma replace_runs_inside_run (run rest : string) :
  Spec.all_whitespace run = true ->
  Spec.starts_with_whitespace rest = false ->
  replace_runs true (run ++ rest) = replace_runs false rest.
Proof.
  induction run as [|c run IH]; simpl; intros Hr Hs.
  - destruct rest as [|c rest]; simpl in *; [reflexivity |].
    rewrite Hs. reflexivity.
  - apply andb_prop in Hr. destruct Hr as [Hc Hr].
    rewrite Hc. apply IH; assumption.
Qed.

Lemma replaceWhitespaceRuns_word (word : string) :
  Spec.no_whitespace word = true -> replaceWhitespaceRuns word = word.
Proof.
  intros H. unfold replaceWhitespaceRuns.
  rewrite <- (append_nil_r word) at 1.
  rewrite replace_runs_word by exact H. simpl. apply append_nil_r.
Qed.

Lemma replaceWhitespaceRuns_run (word run rest : string) :
  Spec.no_whitespace word = true ->
  Spec.all_whitespace run = true ->
  run <> EmptyString ->
  Spec.starts_with_whitespace rest = false ->
  replaceWhitespaceRuns (word ++ run ++ rest)
  = word ++ "_" ++ replaceWhitespaceRuns rest.
Proof.
  intros Hw Hr Hne Hs. unfold replaceWhitespaceRuns.
  rewrite replace_runs_word by exact Hw. f_equal.
  destruct run as [|c run]; [now elim Hne |].
  simpl in *. apply andb_prop in Hr. destruct Hr as [Hc Hr].
  rewrite Hc. f_equal. apply replace_runs_inside_run; assumption.
Qed.

Lemma toLowerCase_length (s : string) :
  String.length (toLowerCase s) = String.length s.
Proof. induction s; simpl; congruence. Qed.

End NameNormalizer.

(** C6. For every prefix and title the registered name is the first 64
    code units (all of them when there are fewer) of prefix + "_" + the
    lower-cased title in which each run of whitespace has become one
    underscore; it never exceeds 64 code units.  A run is replaced as a
    whole: a whitespace-free word followed by a non-empty run and a rest
    that does not start with whitespace yields the word, one underscore and
    the replaced rest.  For the prefix "test_product" and the long title of
    the unit test the name is the 64-unit prefix of the full string. *)
Theorem C6_tool_name_normalised :
  forall (prefix ttl : string),
    toolName prefix ttl
    = JsString.slice0 64
        (prefix ++ "_"
           ++ JsString.toLowerCase (JsString.replaceWhitespaceRuns ttl))
    /\ String.length (toolName prefix ttl) <= 64
    /\ (forall word run rest,
           Spec.no_whitespace word = true ->
           Spec.all_whitespace run = true ->
           run <> EmptyString ->
           Spec.starts_with_whitespace rest = false ->
           JsString.replaceWhitespaceRuns (word ++ run ++ rest)
           = word ++ "_" ++ JsString.replaceWhitespaceRuns rest)
    /\ (Spec.no_whitespace ttl = true ->
        JsString.replaceWhitespaceRuns ttl = ttl)
    /\ toolName "test_product" Fixtures.longTitle
       = JsString.slice0 64
           "test_product_this_is_a_really_long_tool_title_that_should_be_truncated_by_the_server"
    /\ String.length (toolName "test_product" Fixtures.longTitle) = 64.
Proof.
  intros prefix ttl.
  assert (E : toolName prefix ttl
              = JsString.slice0 64 (rawToolName prefix ttl)).
  { unfold toolName.
    destruct (Nat.ltb 64 (String.length (rawToolName prefix ttl))) eqn:L;
      [reflexivity |].
    apply Nat.ltb_ge in L. symmetry. apply slice0_all. exact L. }
  split; [exact E | split; [| split; [| split; [| split]]]].
  - rewrite E, slice0_length. apply Nat.le_min_l.
  - intros word run rest. apply replaceWhitespaceRuns_run.
  - apply replaceWhitespaceRuns_word.
  - vm_compute. reflexivity.
  - vm_compute. reflexivity.
Qed.

Lemma C6_witness :
  JsString.replaceWhitespaceRuns "Search   values"
  = "Search" ++ "_" ++ JsString.replaceWhitespaceRuns "values".
Proof.
  refine (proj1 (proj2 (proj2 (C6_tool_name_normalised "p" "t")))
            "Search" "   " "values" _ _ _ _);
    [reflexivity | reflexivity | discriminate | reflexivity].
Defined.

(** ** Ordered mappings *)

Section ObjectFacts.
Variable V : Type.
Implicit Types (o target source : JsObj.t V) (k : string).

Lemma obj_get_set k k' (v : V) o :
  obj_get k (obj_set k' v o)
  = if String.eqb k' k then Some v else obj_get k o.
Proof.
  induction o as [|[k0 v0] o IH]; simpl.
  - reflexivity.
  - destruct (String.eqb k0 k') eqn:E0; simpl.
    + apply String.eqb_eq in E0. subst k0.
      destruct (String.eqb k' k); reflexivity.
    + destruct (String.eqb k0 k) eqn:E1.
      * apply String.eqb_eq in E1. subst k0.
        rewrite String.eqb_sym, E0. reflexivity.
      * exact IH.
Qed.

Lemma keys_from_complete k (v : V) o :
  obj_get k o = Some v ->
  forall seen, mem k seen = false -> mem k (keys_from seen o) = true.
Proof.
  induction o as [|[k0 v0] o IH]; simpl; intros H seen Hs; [discriminate |].
  destruct (String.eqb k0 k) eqn:E.
  - apply String.eqb_eq in E. subst k0. rewrite Hs. simpl.
    rewrite String.eqb_refl. reflexivity.
  - destruct (mem k0 seen).
    + apply IH; assumption.
    + simpl. rewrite E. simpl. apply IH; [exact H |].
      simpl. rewrite E. exact Hs.
Qed.

Lemma keys_from_sound k o :
  forall seen, mem k (keys_from seen o) = true ->
               exists v, obj_get k o = Some v.
Proof.
  induction o as [|[k0 v0] o IH]; simpl; intros seen H; [discriminate |].
  destruct (String.eqb k0 k) eqn:E; [now exists v0 |].
  destruct (mem k0 seen).
  - apply (IH seen). exact H.
  - simpl in H. rewrite E in H. apply (IH (k0 :: seen)). exact H.
Qed.

Lemma mem_In k (ks : list string) : mem k ks = true <-> In k ks.
Proof.
  induction ks as [|k0 ks IH]; simpl.
  - split; [discriminate | tauto].
  - rewrite orb_true_iff, String.eqb_eq, IH. tauto.
Qed.

(** Copying [ks] of [source] onto [target], as [assign] folds it. *)
Lemma obj_get_copy k source (ks : list string) :
  forall target,
    obj_get k
      (fold_left
         (fun acc k0 =>
            match obj_get k0 source with
            | Some v => obj_set k0 v acc
            | None => acc
            end) ks target)
    = match (if mem k ks then obj_get k source else None) with
      | Some v => Some v
      | None => obj_get k target
      end.
Proof.
  induction ks as [|k0 ks IH]; simpl; intros target; [reflexivity |].
  rewrite IH. destruct (String.eqb k0 k) eqn:E; simpl.
  - apply String.eqb_eq in E. subst k0.
    destruct (obj_get k source) as [v|] eqn:G.
    + destruct (mem k ks); [reflexivity |].
      rewrite obj_get_set, String.eqb_refl. reflexivity.
    + destruct (mem k ks); reflexivity.
  - destruct (obj_get k0 source); [| reflexivity].
    rewrite obj_get_set, E. reflexivity.
Qed.

Lemma obj_get_assign k target source :
  obj_get k (assign target source)
  = match obj_get k source with
    | Some v => Some v
    | None => obj_get k target
    end.
Proof.
  unfold assign. rewrite obj_get_copy.
  destruct (obj_get k source) as [v|] eqn:G.
  - unfold obj_keys. rewrite (@keys_from_complete k v source G []) by reflexivity.
    reflexivity.
  - destruct (mem k (obj_keys source)); reflexivity.
Qed.

Lemma obj_get_spread2 k (a b : option (JsObj.t V)) :
  obj_get k (spread2 a b)
  = match obj_get k (match b with Some x => x | None => [] end) with
    | Some v => Some v
    | None => obj_get k (match a with Some x => x | None => [] end)
    end.
Proof.
  unfold spread2. rewrite !obj_get_assign.
  destruct b as [b|], a as [a|]; cbn;
    repeat match goal with
           | |- context [obj_get k ?o] =>
               is_var o; destruct (obj_get k o)
           end;
    reflexivity.
Qed.

(** Each key of [Object.keys] is paired with the value read at it. *)
Lemma obj_entries_keys o :
  Forall2 (fun key kv => fst kv = key /\ obj_get key o = Some (snd kv))
          (obj_keys o) (obj_entries o).
Proof.
  unfold obj_entries.
  assert (H : forall k, In k (obj_keys o) -> exists v, obj_get k o = Some v).
  { intros k Hk. apply (@keys_from_sound k o []). apply mem_In. exact Hk. }
  induction (obj_keys o) as [|k ks IH]; simpl; [constructor |].
  destruct (H k (or_introl eq_refl)) as [v Hv]. rewrite Hv. simpl.
  constructor; [split; [reflexivity | exact Hv] |].
  apply IH. intros k' Hk'. apply H. right. exact Hk'.
Qed.

End ObjectFacts.

(** C7. Flattening an intersection always yields a mapping, and reading any
    field name in it gives B's field when the flattening of B has one and
    A's field otherwise (a side that does not flatten contributes no
    field); flattening an object node returns its field mapping;
    flattening any other kind, or an absent node, returns undefined. *)
Theorem C7_flatten_intersection_right_bias :
  forall (d : option string) (A B : ZodType),
    let fields (z : ZodType) :=
      match schemaToRawShape (Some z) with Some m => m | None => [] end in
    (exists m,
        schemaToRawShape (Some (ZodIntersection d A B)) = Some m
        /\ forall k,
            obj_get k m
            = match obj_get k (fields B) with
              | Some f => Some f
              | None => obj_get k (fields A)
              end)
    /\ (forall d' shape,
           schemaToRawShape (Some (ZodObject d' shape)) = Some shape)
    /\ (forall z,
           match z with
           | ZodObject _ _ | ZodIntersection _ _ _ => True
           | _ => schemaToRawShape (Some z) = None
           end)
    /\ schemaToRawShape None = None.
Proof.
  intros d A B fields. split; [| split; [| split]].
  - eexists. split; [reflexivity |].
    intros k. subst fields. simpl. apply obj_get_spread2.
  - reflexivity.
  - intros z. destruct z; simpl; trivial.
  - reflexivity.
Qed.

(** ** The schema introspector *)

Section Introspector.

Lemma getReadableTypeName_body (z : ZodType) :
  getReadableTypeName z =
    match unwrapZodType z with
    | ZodRecord _ k v =>
        "record<" ++ getReadableTypeName k ++ ", "
                  ++ getReadableTypeName v ++ ">"
    | ZodString _ => "string"
    | ZodNumber _ => "number"
    | ZodBoolean _ => "boolean"
    | ZodArray _ _ => "array"
    | ZodObject _ _ => "object"
    | ZodEnum _ _ => "enum"
    | ZodLiteral _ _ => "literal"
    | ZodUnion _ _ => "union"
    | _ => "any"
    end.
Proof.
  funelim (getReadableTypeName z);
    match goal with
    | H : unwrapZodType _ = _ |- _ => rewrite H; reflexivity
    end.
Qed.

Lemma unwrapZodType_idempotent (z : ZodType) :
  unwrapZodType (unwrapZodType z) = unwrapZodType z.
Proof. induction z; simpl; auto. Qed.

Lemma getReadableTypeName_unwrap (z : ZodType) :
  getReadableTypeName (unwrapZodType z) = getReadableTypeName z.
Proof.
  rewrite (getReadableTypeName_body (unwrapZodType z)).
  rewrite (getReadableTypeName_body z).
  rewrite unwrapZodType_idempotent. reflexivity.
Qed.

Lemma getReadableTypeName_label (z : ZodType) :
  Spec.ReadableLabel (getReadableTypeName z).
Proof.
  funelim (getReadableTypeName z); try constructor; assumption.
Qed.

End Introspector.

(** C8. [getReadableTypeName] is a total function on schema trees: for
    every tree it yields a label, the label belongs to the fixed set
    {string, number, boolean, array, object, enum, literal, union, any,
    record<K, V> with K and V labels of the set}, it only depends on the
    node left after the optional/default wrappers are stripped, and every
    kind outside the recognised ones yields "any". *)
Theorem C8_readable_type_name_total_and_closed :
  forall (z : ZodType),
    (exists label,
        getReadableTypeName z = label /\ Spec.ReadableLabel label)
    /\ getReadableTypeName z = getReadableTypeName (unwrapZodType z)
    /\ (forall d k v,
           unwrapZodType z = ZodRecord d k v ->
           getReadableTypeName z
           = "record<" ++ getReadableTypeName k ++ ", "
                       ++ getReadableTypeName v ++ ">")
    /\ (Spec.unrecognized (unwrapZodType z) = true ->
        getReadableTypeName z = "any").
Proof.
  intros z. split; [| split; [| split]].
  - exists (getReadableTypeName z). split; [reflexivity |].
    apply getReadableTypeName_label.
  - symmetry. apply getReadableTypeName_unwrap.
  - intros d k v E. rewrite getReadableTypeName_body, E. reflexivity.
  - intros U. rewrite getReadableTypeName_body.
    destruct (unwrapZodType z); simpl in U; try discriminate; reflexivity.
Qed.

Lemma C8_witness :
  getReadableTypeName
    (ZodOptional None (ZodOther (Some "a nullable string") "ZodNullable"))
  = "any"
  /\ getReadableTypeName
       (ZodDefault None
          (ZodRecord None (ZodString None) (ZodArray None (ZodString None)))
          (JsObject []))
     = "record<" ++ getReadableTypeName (ZodString None) ++ ", "
                 ++ getReadableTypeName (ZodArray None (ZodString None))
                 ++ ">".
Proof.
  split.
  - refine (proj2 (proj2 (proj2
              (C8_readable_type_name_total_and_closed _))) _).
    reflexivity.
  - refine (proj1 (proj2 (proj2
              (C8_readable_type_name_total_and_closed _))) None _ _ _).
    reflexivity.
Defined.

(** ** The per-field formatter *)

Section Formatter.
Import JsString.

Lemma stringify_truthy (v : JsValue) : truthy (Json.stringify v) = true.
Proof.
  destruct v as [|[|]|n|s|items|props]; try reflexivity.
  unfold Json.stringify, of_Z. destruct n as [|p|p]; try reflexivity.
  simpl. pose proof (DecimalPos.Unsigned.to_uint_nonnil p) as N.
  destruct (Pos.to_uint p); [now elim N | reflexivity ..].
Qed.

Lemma description_or_null_truthy (z : ZodType) (d : string) :
  description_or_null z = Some d -> truthy d = true.
Proof.
  unfold description_or_null.
  destruct (description_of z) as [d'|]; [| discriminate].
  destruct (truthy d') eqn:T; [| discriminate].
  intros [= <-]. exact T.
Qed.

Lemma first_description_truthy (z : ZodType) (d : string) :
  Spec.first_description z = Some d -> truthy d = true.
Proof.
  induction z; simpl; unfold nullish_or;
    match goal with
    | |- context [description_or_null ?f] =>
        destruct (description_or_null f) as [d0|] eqn:D
    end;
    intros E; try discriminate;
    try (injection E as <-; eapply description_or_null_truthy; exact D);
    auto.
Qed.

Lemma nullish_or_assoc {A : Type} (a b c : option A) :
  nullish_or (nullish_or a b) c = nullish_or a (nullish_or b c).
Proof. destruct a; reflexivity. Qed.

Lemma nullish_or_none_r {A : Type} (a : option A) : nullish_or a None = a.
Proof. destruct a; reflexivity. Qed.

(** The formatter with arbitrary accumulators: what it has gathered so far
    is completed by what the remaining wrappers of [field] hold. *)
Lemma formatParameterDescription_acc (key : string) (field : ZodType) :
  forall (description : option string) (isOptional : bool)
         (defaultValue : option string),
    formatParameterDescription key field description isOptional defaultValue
    = "- " ++ key ++ " (" ++ getReadableTypeName (unwrapZodType field) ++ ")"
        ++ (if isOptional || Spec.seen_optional field
               || Spec.is_some (Spec.innermost_default field)
            then EmptyString else " *required*")
        ++ render_description
             (nullish_or description (Spec.first_description field))
        ++ render_default
             match Spec.innermost_default field with
             | Some dv => Some (Json.stringify dv)
             | None => defaultValue
             end.
Proof.
  induction field; intros dsc opt dflt;
    try (simpl; rewrite !nullish_or_none_r, !orb_false_r; reflexivity).
  - (* ZodOptional *)
    simpl. rewrite IHfield, nullish_or_assoc, !orb_true_r. reflexivity.
  - (* ZodDefault *)
    simpl. rewrite IHfield, nullish_or_assoc.
    destruct (Spec.innermost_default field); simpl;
      rewrite !orb_true_r; reflexivity.
Qed.

Lemma formatParameterDescription_field_line (key : string) (field : ZodType) :
  formatParameterDescription key field None false None
  = Spec.field_line key field.
Proof.
  rewrite formatParameterDescription_acc. unfold Spec.field_line, Spec.unwrap.
  assert (D : render_description
                (nullish_or None (Spec.first_description field))
              = match Spec.first_description field with
                | Some d => ": " ++ d
                | None => EmptyString
                end).
  { simpl. destruct (Spec.first_description field) as [d|] eqn:D; simpl;
      [| reflexivity].
    rewrite (first_description_truthy _ D). reflexivity. }
  assert (J : render_default
                match Spec.innermost_default field with
                | Some dv => Some (Json.stringify dv)
                | None => None
                end
              = match Spec.innermost_default field with
                | Some dv => " (default: " ++ Json.stringify dv ++ ")"
                | None => EmptyString
                end).
  { destruct (Spec.innermost_default field) as [dv|]; simpl; [| reflexivity].
    rewrite stringify_truthy. reflexivity. }
  rewrite D, J. reflexivity.
Qed.

End Formatter.

(** ** The description compiler *)

Section DescriptionCompiler.
Import JsString Description.

Lemma Forall2_map_r {A B C : Type} (P : A -> C -> Prop) (Q : A -> B -> Prop)
    (f : B -> C) (l : list A) (l' : list B) :
  (forall a b, Q a b -> P a (f b)) ->
  Forall2 Q l l' -> Forall2 P l (map f l').
Proof.
  intros H F. induction F; simpl; constructor; auto.
Qed.

Lemma getDescription_object_schema (params : ToolParams)
    (d : option string) (shape : ZodRawShape) :
  inputSchema params = Some (ZodObject d shape) ->
  getDescription params
  = trim ((summary params ++ parameters_section (parameters params))
            ++ (nl ++ nl ++ "**Parameters:**" ++ nl
                   ++ join nl (schema_lines shape))
            ++ (outputDescription_section (outputDescription params)
                  ++ useCases_section (useCases params)
                  ++ examples_section (examples params)
                  ++ hints_section (hints params))).
Proof.
  intros H. unfold getDescription. rewrite H.
  unfold inputSchema_section. rewrite !append_assoc. reflexivity.
Qed.

End DescriptionCompiler.

(** The description the unit test expects for the tool with input and
    output schemas. *)
Example getDescription_searchValues :
  getDescription Fixtures.searchValues
  = JsString.join Description.nl
      ["Tool using input and output schemas";
       EmptyString;
       "**Parameters:**";
       "- p1 (string) *required*: param-required-string";
       "- p2 (number): param-optional-number";
       "- p3 (number): param-defaulted-number (default: 1)";
       "- p4 (boolean): param-defaulted-bool-described-after (default: false)"].
Proof. vm_compute. reflexivity. Qed.

(** C1, as stated, fails: an inputSchema that is an intersection of two
    objects flattens to a shape with the fields a and b, yet the compiled
    description is the bare summary and holds no Parameters header. *)
Lemma C1_counterexample :
  schemaToRawShape (inputSchema Fixtures.intersectionTool)
  = Some [("a", ZodString None); ("b", ZodNumber None)]
  /\ getDescription Fixtures.intersectionTool = "A test tool"
  /\ JsString.includes "**Parameters:**"
       (getDescription Fixtures.intersectionTool) = false.
Proof. vm_compute. repeat split. Qed.

(** Why the amended statement speaks of the text before trimming: when the
    last line of the description ends with whitespace, [trim] shortens
    it. *)
Example trim_shortens_last_line :
  formatParameterDescription "k" (ZodString (Some "x ")) None false None
  = "- k (string) *required*: x "
  /\ getDescription Fixtures.trailingSpaceTool
     = JsString.join Description.nl
         ["A test tool"; EmptyString; "**Parameters:**";
          "- k (string) *required*: x"].
Proof. vm_compute. split; reflexivity. Qed.

(** C1, amended.  For every ToolSpec whose inputSchema is a plain object
    node, the compiled description is the trimmed text of a string that
    contains a blank line, the header "**Parameters:**" and then one line
    per key of the shape, in key order, joined by newlines; the header
    itself is never trimmed away.  The line of a
    key is "- key (type)", then " *required*" only when neither an optional
    wrapper nor a default was found on the field, then ": description" for
    the outermost non-empty description, then " (default: JSON)" for the
    innermost default when one was found. *)
Theorem C1_object_schema_parameters_section :
  forall (params : ToolParams) (d : option string) (shape : ZodRawShape),
    inputSchema params = Some (ZodObject d shape) ->
    JsString.includes "**Parameters:**" (getDescription params) = true
    /\
    exists (pre post : string) (lines : list string),
      getDescription params
      = JsString.trim
          (pre ++ (Description.nl ++ Description.nl ++ "**Parameters:**"
                     ++ Description.nl
                     ++ JsString.join Description.nl lines)
               ++ post)
      /\ Forall2
           (fun key line =>
              exists field,
                obj_get key shape = Some field
                /\ line
                   = "- " ++ key ++ " (" ++ getReadableTypeName field ++ ")"
                       ++ (if Spec.seen_optional field
                              || Spec.is_some (Spec.innermost_default field)
                           then EmptyString else " *required*")
                       ++ match Spec.first_description field with
                          | Some dsc => ": " ++ dsc
                          | None => EmptyString
                          end
                       ++ match Spec.innermost_default field with
                          | Some dv =>
                              " (default: " ++ Json.stringify dv ++ ")"
                          | None => EmptyString
                          end)
           (obj_keys shape) lines.
Proof.
  intros params d shape H. split.
  { rewrite (getDescription_object_schema _ H).
    apply includes_trim; [reflexivity | reflexivity |].
    rewrite !append_assoc.
    rewrite <- (append_assoc (summary params)).
    rewrite <- (append_assoc _ Description.nl).
    rewrite <- (append_assoc _ Description.nl).
    apply includes_append. }
  eexists _, _, (Description.schema_lines shape). split.
  - apply (getDescription_object_schema _ H).
  - unfold Description.schema_lines.
    refine (@Forall2_map_r _ _ _ _ _ _ _ _ _ (obj_entries_keys shape)).
    intros key [k field] [Hk Hf]. simpl in *. subst k.
    exists field. split; [exact Hf |].
    rewrite formatParameterDescription_field_line.
    unfold Spec.field_line, Spec.unwrap.
    rewrite getReadableTypeName_unwrap. reflexivity.
Qed.

Lemma C1_witness :
  exists (pre post : string) (lines : list string),
    getDescription Fixtures.searchValues
    = JsString.trim
        (pre ++ (Description.nl ++ Description.nl ++ "**Parameters:**"
                   ++ Description.nl
                   ++ JsString.join Description.nl lines)
             ++ post)
    /\ Forall2
         (fun key line =>
            exists field,
              obj_get key
                [("p1", ZodString (Some "param-required-string"));
                 ("p2", ZodOptional None
                          (ZodNumber (Some "param-optional-number")));
                 ("p3", ZodDefault None
                          (ZodNumber (Some "param-defaulted-number"))
                          (JsNumber 1));
                 ("p4", ZodDefault
                          (Some "param-defaulted-bool-described-after")
                          (ZodBoolean None) (JsBool false))]
              = Some field
              /\ line
                 = "- " ++ key ++ " (" ++ getReadableTypeName field ++ ")"
                     ++ (if Spec.seen_optional field
                            || Spec.is_some (Spec.innermost_default field)
                         then EmptyString else " *required*")
                     ++ match Spec.first_description field with
                        | Some dsc => ": " ++ dsc
                        | None => EmptyString
                        end
                     ++ match Spec.innermost_default field with
                        | Some dv =>
                            " (default: " ++ Json.stringify dv ++ ")"
                        | None => EmptyString
                        end)
         ["p1"; "p2"; "p3"; "p4"] lines.
Proof.
  exact (proj2 (@C1_object_schema_parameters_section Fixtures.searchValues
                  None _ eq_refl)).
Defined.

(** ** The unit tests of server.test.ts, replayed on the model *)

Section UnitTests.
Import Fixtures.

Example test_registers_tool :
  let t := registerTool mockClient
             (with_schemas
                {| title := "Test Tool"; summary := "A test tool";
                   parameters :=
                     Some [param "p1" (ZodString None) true
                             (Some "The input for the tool")];
                   inputSchema := None; outputSchema := None;
                   useCases := None; examples := None; hints := None;
                   outputDescription := None; readOnly := None;
                   destructive := None; idempotent := None;
                   openWorld := None |} None None)
             (resolving ResolvedUndefined) in
  rt_name t = "test_product_test_tool"
  /\ rt_title t = "Test Product: Test Tool"
  /\ rt_description t
     = JsString.join Description.nl
         ["A test tool"; EmptyString; "**Parameters:**";
          "- p1 (string) *required*: The input for the tool"]
  /\ obj_get "p1" (rt_inputSchema t)
     = Some (ZodString (Some "The input for the tool"))
  /\ rt_annotations t
     = {| a_title := "Test Product: Test Tool"; readOnlyHint := true;
          destructiveHint := false; idempotentHint := true;
          openWorldHint := false |}.
Proof. vm_compute. repeat split. Qed.

Example test_summary_only :
  getDescription testTool = "A test tool".
Proof. vm_compute. reflexivity. Qed.

Example test_complex_parameters :
  getDescription complexTool
  = JsString.join Description.nl
      ["A test tool"; EmptyString;
       "**Parameters:**";
       "- p1 (string) *required*: The input for the tool (e.g. example1, example2)";
       "  - constraint1";
       "  - constraint2";
       "- p2 (number): The optional numeric input for the tool";
       "- p3 (boolean) *required*";
       "- p4 (array) *required*";
       "- p5 (object) *required*";
       "- p6 (enum) *required*";
       "- p7 (literal) *required*";
       "- p8 (union) *required*";
       "- p9 (any) *required*"; EmptyString;
       "**Output Description:** The output description"; EmptyString;
       "**Use Cases:** 1. Testing 2. Development"; EmptyString;
       "**Examples:**";
       "1. Example 1";
       Description.fence ++ "json";
       "{";
       "  " ++ q ++ "p1" ++ q ++ ": " ++ q ++ "example1" ++ q ++ ",";
       "  " ++ q ++ "p2" ++ q ++ ": 42";
       "}";
       Description.fence;
       "Expected Output: Expected output for example 1"; EmptyString;
       "2. Example 2";
       Description.fence ++ "json";
       "{";
       "  " ++ q ++ "p1" ++ q ++ ": " ++ q ++ "example2" ++ q ++ ",";
       "  " ++ q ++ "p2" ++ q ++ ": 24";
       "}";
       Description.fence; EmptyString;
       "**Hints:** 1. First hint 2. Second hint"]
  /\ getOutputSchema complexTool = None
  /\ getAnnotations (toolTitle mockClient complexTool) complexTool
     = {| a_title := "Test Product: Test Tool"; readOnlyHint := true;
          destructiveHint := true; idempotentHint := true;
          openWorldHint := true |}.
Proof. vm_compute. repeat split. Qed.

Example test_structured_content :
  invoke mockClient searchValues
    (spy (resolving
            (ResolvedResult
               {| isError := Some false; content := None;
                  structuredContent :=
                    Some [("values",
                           JsArray [JsObject [("id", JsStr "1");
                                              ("name", JsStr "Alpha")]])] |})))
    (JsObject [("query", JsStr "alpha")]) (JsObject []) emptyWorld
  = (Returns
       (ResolvedResult
          {| isError := Some false;
             content :=
               Some [TextContent
                       ("{" ++ q ++ "values" ++ q ++ ":[{" ++ q ++ "id" ++ q
                            ++ ":" ++ q ++ "1" ++ q ++ "," ++ q ++ "name"
                            ++ q ++ ":" ++ q ++ "Alpha" ++ q ++ "}]}")];
             structuredContent :=
               Some [("values",
                      JsArray [JsObject [("id", JsStr "1");
                                         ("name", JsStr "Alpha")]])] |}),
     {| notifications := [];
        callback_calls := [(JsObject [("query", JsStr "alpha")],
                            JsObject [])] |})
  /\ List.length (obj_keys (getInputSchema searchValues)) = 4.
Proof. vm_compute. repeat split. Qed.

Example test_error_result_needs_no_structured_content :
  invoke mockClient getValues
    (spy (resolving
            (ResolvedResult {| isError := Some true; content := None;
                               structuredContent := None |})))
    noArgs noArgs emptyWorld
  = (Returns
       (ResolvedResult {| isError := Some true; content := None;
                          structuredContent := None |}),
     {| notifications := []; callback_calls := [(noArgs, noArgs)] |}).
Proof. vm_compute. reflexivity. Qed.

Example test_schemaToRawShape :
  schemaToRawShape (Some valuesSchema)
  = Some [("values",
           ZodArray (Some "List of values")
             (ZodObject None [("id", ZodString None);
                              ("name", ZodString None)]))]
  /\ schemaToRawShape (Some (ZodArray None (ZodString None))) = None
  /\ schemaToRawShape None = None.
Proof. repeat split. Qed.

Example test_getReadableTypeName :
  map getReadableTypeName
    [ZodString None; ZodNumber None; ZodBoolean None;
     ZodArray None (ZodString None);
     ZodObject None [("key", ZodString None)];
     ZodEnum None ["value1"; "value2"];
     ZodLiteral None [JsStr "value"];
     ZodUnion None [ZodString None; ZodNumber None];
     ZodRecord None (ZodString None) (ZodNumber None);
     ZodRecord None (ZodString None) (ZodArray None (ZodString None));
     ZodAny None;
     ZodOptional None (ZodString None);
     ZodDefault None (ZodString None) (JsStr "default")]
  = ["string"; "number"; "boolean"; "array"; "object"; "enum"; "literal";
     "union"; "record<string, number>"; "record<string, array>"; "any";
     "string"; "string"].
Proof. vm_compute. reflexivity. Qed.

End UnitTests.

(* ===================================================================== *)
(** * Further properties of the adapter *)
(* ===================================================================== *)

(** ** The name normaliser *)

Section NameProperties.
Import JsString.

Lemma isWhiteSpace_toLowerCase_unit (c : ascii) :
  isWhiteSpace (toLowerCase_unit c) = isWhiteSpace c.
Proof. destruct c as [[] [] [] [] [] [] [] []]; reflexivity. Qed.

Lemma toLowerCase_unit_idempotent (c : ascii) :
  toLowerCase_unit (toLowerCase_unit c) = toLowerCase_unit c.
Proof. destruct c as [[] [] [] [] [] [] [] []]; reflexivity. Qed.

Lemma toLowerCase_idempotent (s : string) :
  toLowerCase (toLowerCase s) = toLowerCase s.
Proof.
  induction s as [|c s IH]; simpl; [reflexivity |].
  now rewrite toLowerCase_unit_idempotent, IH.
Qed.

Lemma no_whitespace_toLowerCase (s : string) :
  Spec.no_whitespace (toLowerCase s) = Spec.no_whitespace s.
Proof.
  induction s as [|c s IH]; simpl; [reflexivity |].
  now rewrite isWhiteSpace_toLowerCase_unit, IH.
Qed.

Lemma no_whitespace_replace_runs (in_run : bool) (s : string) :
  Spec.no_whitespace (replace_runs in_run s) = true.
Proof.
  revert in_run. induction s as [|c s IH]; intros f; simpl; [reflexivity |].
  destruct (isWhiteSpace c) eqn:W.
  - destruct f; simpl; apply IH.
  - simpl. rewrite W. simpl. apply IH.
Qed.

Lemma no_whitespace_append (a b : string) :
  Spec.no_whitespace (a ++ b)
  = Spec.no_whitespace a && Spec.no_whitespace b.
Proof.
  induction a as [|c a IH]; simpl; [reflexivity |].
  now rewrite IH, andb_assoc.
Qed.

Lemma no_whitespace_slice0 (n : nat) (s : string) :
  Spec.no_whitespace s = true -> Spec.no_whitespace (slice0 n s) = true.
Proof.
  unfold slice0. revert n.
  induction s as [|c s IH]; intros [|n] H; simpl in *; try reflexivity.
  apply andb_prop in H. destruct H as [Hc Hs].
  rewrite Hc. simpl. apply IH, Hs.
Qed.

Lemma toolName_slice (prefix ttl : string) :
  toolName prefix ttl = slice0 64 (rawToolName prefix ttl).
Proof.
  unfold toolName.
  destruct (Nat.ltb 64 (String.length (rawToolName prefix ttl))) eqn:L;
    [reflexivity |].
  apply Nat.ltb_ge in L. symmetry. apply slice0_all. exact L.
Qed.

Lemma replace_runs_skip (run rest : string) :
  Spec.all_whitespace run = true ->
  replace_runs true (run ++ rest) = replace_runs true rest.
Proof.
  induction run as [|c run IH]; simpl; intros W; [reflexivity |].
  apply andb_prop in W. destruct W as [Wc Wr]. rewrite Wc. apply IH, Wr.
Qed.

Lemma replace_runs_run (in_run : bool) (run rest : string) :
  Spec.all_whitespace run = true -> run <> EmptyString ->
  replace_runs in_run (run ++ rest)
  = (if in_run then EmptyString else "_") ++ replace_runs true rest.
Proof.
  intros W N. destruct run as [|c run]; [now elim N |].
  simpl in *. apply andb_prop in W. destruct W as [Wc Wr]. rewrite Wc.
  rewrite replace_runs_skip by exact Wr. destruct in_run; reflexivity.
Qed.

Lemma replace_runs_toLowerCase (in_run : bool) (s : string) :
  toLowerCase (replace_runs in_run s) = replace_runs in_run (toLowerCase s).
Proof.
  revert in_run. induction s as [|c s IH]; intros f; simpl; [reflexivity |].
  rewrite isWhiteSpace_toLowerCase_unit.
  destruct (isWhiteSpace c); [destruct f |]; simpl; now rewrite IH.
Qed.

Lemma slice0_append_short (n : nat) (a b : string) :
  n <= String.length a -> slice0 n (a ++ b) = slice0 n a.
Proof.
  unfold slice0. revert n.
  induction a as [|c a IH]; intros [|n] H; simpl in *;
    try reflexivity; try lia.
  - destruct b; reflexivity.
  - rewrite IH by lia. reflexivity.
Qed.

Lemma prefix_slice0_append (n : nat) (a b : string) :
  String.length a <= n -> String.prefix a (slice0 n (a ++ b)) = true.
Proof.
  unfold slice0. revert n.
  induction a as [|c a IH]; intros n H; simpl in *.
  - apply prefix_nil.
  - destruct n as [|n]; [lia |]. simpl.
    destruct (ascii_dec c c) as [_|N]; [| now elim N].
    apply IH. lia.
Qed.

Lemma slice0_split (n : nat) (s : string) :
  s = slice0 n s ++ substring n (String.length s - n) s.
Proof.
  unfold slice0. revert n.
  induction s as [|c s IH]; intros [|n]; simpl; try reflexivity.
  - f_equal. clear IH. induction s as [|x s IH]; simpl; [reflexivity |].
    f_equal. exact IH.
  - f_equal. apply IH.
Qed.

End NameProperties.

(** X1. A tool name never contains whitespace taken from the title: if the
    client's prefix is free of whitespace, so is the whole name. *)
Theorem X1_tool_name_has_no_whitespace :
  forall (prefix ttl : string),
    Spec.no_whitespace prefix = true ->
    Spec.no_whitespace (toolName prefix ttl) = true.
Proof.
  intros prefix ttl H. rewrite toolName_slice.
  apply no_whitespace_slice0. unfold rawToolName.
  rewrite !no_whitespace_append, H, no_whitespace_toLowerCase.
  unfold JsString.replaceWhitespaceRuns.
  rewrite no_whitespace_replace_runs. reflexivity.
Qed.

Lemma X1_witness :
  Spec.no_whitespace (toolName "test_product" "Search   values") = true.
Proof.
  apply (@X1_tool_name_has_no_whitespace "test_product" "Search   values").
  reflexivity.
Defined.

(** X2. The name does not depend on how wide a whitespace run of the title
    is, nor on which whitespace it is made of: replacing a non-empty run by
    any other non-empty run, anywhere in the title, gives the same name. *)
Theorem X2_tool_name_ignores_run_width :
  forall (prefix before run1 run2 after : string),
    Spec.all_whitespace run1 = true -> run1 <> EmptyString ->
    Spec.all_whitespace run2 = true -> run2 <> EmptyString ->
    toolName prefix (before ++ run1 ++ after)
    = toolName prefix (before ++ run2 ++ after).
Proof.
  intros prefix before run1 run2 after W1 N1 W2 N2.
  assert (E : forall f,
             JsString.replace_runs f (before ++ run1 ++ after)
             = JsString.replace_runs f (before ++ run2 ++ after)).
  { induction before as [|c before IH]; intros f; simpl.
    - rewrite !replace_runs_run by assumption. reflexivity.
    - destruct (JsString.isWhiteSpace c); [destruct f |];
        now rewrite IH. }
  unfold toolName, rawToolName, JsString.replaceWhitespaceRuns.
  rewrite (E false). reflexivity.
Qed.

Lemma X2_witness :
  toolName "test_product" ("Get" ++ "   " ++ "values")
  = toolName "test_product" ("Get" ++ " " ++ "values").
Proof.
  apply (@X2_tool_name_ignores_run_width "test_product" "Get" "   " " "
           "values");
    [reflexivity | discriminate | reflexivity | discriminate].
Defined.

(** X3. Titles that differ only in letter case get the same name. *)
Theorem X3_tool_name_ignores_case :
  forall (prefix ttl ttl' : string),
    JsString.toLowerCase ttl = JsString.toLowerCase ttl' ->
    toolName prefix ttl = toolName prefix ttl'.
Proof.
  intros prefix ttl ttl' H.
  unfold toolName, rawToolName, JsString.replaceWhitespaceRuns.
  rewrite !replace_runs_toLowerCase, H. reflexivity.
Qed.

Lemma X3_witness :
  toolName "test_product" "Get Values" = toolName "test_product" "get values".
Proof.
  apply (@X3_tool_name_ignores_case "test_product" "Get Values" "get values").
  reflexivity.
Defined.

(** X4. Every tool of a client whose prefix is shorter than 64 code units
    is named with that prefix followed by an underscore: truncation never
    reaches into the namespace part. *)
Theorem X4_tool_name_keeps_prefix :
  forall (prefix ttl : string),
    String.length prefix < 64 ->
    String.prefix (prefix ++ "_") (toolName prefix ttl) = true.
Proof.
  intros prefix ttl H. rewrite toolName_slice. unfold rawToolName.
  rewrite <- append_assoc. apply prefix_slice0_append.
  assert (L : forall a b, String.length (a ++ b)
                          = String.length a + String.length b).
  { induction a; simpl; intros; [reflexivity | now rewrite IHa]. }
  rewrite L. simpl. lia.
Qed.

Lemma X4_witness :
  String.prefix ("test_product" ++ "_")
    (toolName "test_product" Fixtures.longTitle) = true.
Proof.
  apply (@X4_tool_name_keeps_prefix "test_product" Fixtures.longTitle).
  vm_compute. repeat constructor.
Defined.

(** X5. With a prefix of 64 code units or more the title is cut away
    entirely: every tool of that client gets the same name, the first 64
    code units of the prefix. *)
Theorem X5_long_prefix_hides_title :
  forall (prefix ttl : string),
    64 <= String.length prefix ->
    toolName prefix ttl = JsString.slice0 64 prefix.
Proof.
  intros prefix ttl H. rewrite toolName_slice. unfold rawToolName.
  apply slice0_append_short. exact H.
Qed.

Lemma X5_witness :
  toolName
    "a_client_prefix_that_is_by_itself_longer_than_the_sixty_four_units"
    "Search"
  = JsString.slice0 64
      "a_client_prefix_that_is_by_itself_longer_than_the_sixty_four_units".
Proof.
  apply (@X5_long_prefix_hides_title
           "a_client_prefix_that_is_by_itself_longer_than_the_sixty_four_units"
           "Search").
  vm_compute. repeat constructor.
Defined.

(** X6. Truncation only drops a suffix: the untruncated name is the
    registered name followed by the code units beyond the 64th, and a raw
    name of at most 64 code units is registered as it is. *)
Theorem X6_truncation_drops_a_suffix :
  forall (prefix ttl : string),
    (exists rest,
        rawToolName prefix ttl = toolName prefix ttl ++ rest
        /\ String.length rest
           = String.length (rawToolName prefix ttl) - 64)
    /\ (String.length (rawToolName prefix ttl) <= 64 ->
        toolName prefix ttl = rawToolName prefix ttl).
Proof.
  intros prefix ttl. rewrite toolName_slice. split.
  - exists (substring 64 (String.length (rawToolName prefix ttl) - 64)
              (rawToolName prefix ttl)).
    split; [apply slice0_split |].
    generalize (rawToolName prefix ttl) as s. intros s.
    generalize 64 as n. intros n. revert n.
    induction s as [|c s IH]; intros [|n]; simpl; try reflexivity.
    + f_equal. clear IH. induction s as [|x s IH]; simpl; [reflexivity |].
      f_equal. exact IH.
    + apply IH.
  - intros H. apply slice0_all. exact H.
Qed.

Lemma X6_witness :
  toolName "test_product" "Test Tool" = rawToolName "test_product" "Test Tool".
Proof.
  apply (proj2 (@X6_truncation_drops_a_suffix "test_product" "Test Tool")).
  vm_compute. repeat constructor.
Defined.

(** X7. Normalising a title is idempotent: the lower-cased, run-replaced
    title is its own normal form, so registering a tool under it gives the
    same name. *)
Theorem X7_title_normalisation_idempotent :
  forall (prefix ttl : string),
    let norm t := JsString.toLowerCase (JsString.replaceWhitespaceRuns t) in
    norm (norm ttl) = norm ttl
    /\ toolName prefix (norm ttl) = toolName prefix ttl.
Proof.
  intros prefix ttl norm.
  assert (E : norm (norm ttl) = norm ttl).
  { subst norm. cbv beta.
    rewrite (@replaceWhitespaceRuns_word
               (JsString.toLowerCase (JsString.replaceWhitespaceRuns ttl))).
    - apply toLowerCase_idempotent.
    - rewrite no_whitespace_toLowerCase.
      apply no_whitespace_replace_runs. }
  split; [exact E |].
  unfold toolName, rawToolName. fold (norm (norm ttl)). fold (norm ttl).
  rewrite E. reflexivity.
Qed.

(** ** The invocation wrapper *)

Section WrapperProperties.

Lemma validateCallbackResult_cases (r : CallToolResult) (params : ToolParams)
    (w : World) :
  validateCallbackResult r params w
  = if passes_contract r params then (Returns tt, w)
    else (Throws (PlainError (contract_message params)), w).
Proof.
  unfold validateCallbackResult, passes_contract.
  destruct (is_truthy (isError r)); simpl; [reflexivity |].
  destruct (outputSchema params), (structuredContent r); reflexivity.
Qed.

Lemma invoke_configured (client : Client) (params : ToolParams)
    (cb : Callback) (args extra : JsValue) (w : World) :
  isConfigured client = true ->
  invoke client params cb args extra w
  = match cb args extra w with
    | (Returns (ResolvedResult r), w') =>
        if passes_contract r params
        then (Returns (ResolvedResult (addStructuredContentAsText r)), w')
        else (Throws (PlainError (contract_message params)),
              reported client params
                (PlainError (contract_message params)) w')
    | (Returns v, w') => (Returns v, w')
    | (Throws (ToolError m), w') =>
        (Returns (ResolvedResult (error_result client params m)), w')
    | (Throws e, w') => (Throws e, reported client params e w')
    end.
Proof.
  intros Hc. unfold invoke, try_catch, bind. rewrite Hc. simpl.
  destruct (cb args extra w) as [[v|e] w'].
  - destruct v as [| |r]; try reflexivity.
    rewrite validateCallbackResult_cases.
    destruct (passes_contract r params); reflexivity.
  - destruct e; reflexivity.
Qed.

End WrapperProperties.

(** X8. When the client is configured and the callback resolves a result
    that meets the output contract (it is an error result, or no
    outputSchema was declared, or it carries structuredContent), the
    wrapper returns that result after content normalisation and leaves the
    world as the callback left it: nothing is reported. *)
Theorem X8_valid_result_is_normalised_and_returned :
  forall (client : Client) (params : ToolParams) (cb : Callback)
         (args extra : JsValue) (w w' : World) (r : CallToolResult),
    isConfigured client = true ->
    cb args extra w = (Returns (ResolvedResult r), w') ->
    is_truthy (isError r) = true
    \/ outputSchema params = None
    \/ structuredContent r <> None ->
    invoke client params cb args extra w
    = (Returns (ResolvedResult (addStructuredContentAsText r)), w').
Proof.
  intros client params cb args extra w w' r Hc Hcb Hok.
  rewrite invoke_configured by exact Hc. rewrite Hcb.
  assert (P : passes_contract r params = true).
  { unfold passes_contract. destruct Hok as [H | [H | H]].
    - rewrite H. reflexivity.
    - rewrite H. apply orb_true_r.
    - destruct (structuredContent r); [| now elim H].
      destruct (outputSchema params); apply orb_true_r. }
  rewrite P. reflexivity.
Qed.

Lemma X8_witness :
  invoke Fixtures.mockClient Fixtures.getValues
    (Fixtures.resolving
       (ResolvedResult {| isError := Some true; content := None;
                          structuredContent := None |}))
    Fixtures.noArgs Fixtures.noArgs Fixtures.emptyWorld
  = (Returns
       (ResolvedResult
          (addStructuredContentAsText
             {| isError := Some true; content := None;
                structuredContent := None |})),
     Fixtures.emptyWorld).
Proof.
  apply (@X8_valid_result_is_normalised_and_returned Fixtures.mockClient
           Fixtures.getValues _ Fixtures.noArgs Fixtures.noArgs
           Fixtures.emptyWorld Fixtures.emptyWorld _);
    [reflexivity | reflexivity | left; reflexivity].
Defined.

(** X9. The wrapper never lets a ToolError escape: whatever the client,
    the ToolSpec and the callback do, the outcome is not a throw of a
    ToolError. *)
Theorem X9_tool_error_never_escapes :
  forall (client : Client) (params : ToolParams) (cb : Callback)
         (args extra : JsValue) (w : World) (m : string),
    fst (invoke client params cb args extra w) <> Throws (ToolError m).
Proof.
  intros client params cb args extra w m.
  destruct (isConfigured client) eqn:Hc.
  - rewrite invoke_configured by exact Hc.
    destruct (cb args extra w) as [[[| |r]|[m'|m']] w']; simpl;
      try discriminate.
    destruct (passes_contract r params); discriminate.
  - rewrite invoke_not_configured by exact Hc. discriminate.
Qed.

(** X10. The wrapper reports to the telemetry sink exactly when it throws:
    starting from the world the body left (the callback's, or the initial
    one when the client is not configured), a throw of [e] adds the one
    event for [e], and a return adds nothing. *)
Theorem X10_reports_exactly_when_it_throws :
  forall (client : Client) (params : ToolParams) (cb : Callback)
         (args extra : JsValue) (w : World),
    let after_body :=
      if isConfigured client then snd (cb args extra w) else w in
    snd (invoke client params cb args extra w)
    = match fst (invoke client params cb args extra w) with
      | Throws e => reported client params e after_body
      | Returns _ => after_body
      end.
Proof.
  intros client params cb args extra w.
  destruct (isConfigured client) eqn:Hc; cbv zeta.
  - rewrite invoke_configured by exact Hc.
    destruct (cb args extra w) as [[[| |r]|[m'|m']] w']; simpl;
      try reflexivity.
    destruct (passes_contract r params); reflexivity.
  - rewrite invoke_not_configured by exact Hc. reflexivity.
Qed.

(** X11. A configured wrapper invokes the callback exactly once, first, and
    with the arguments it was given: running it with an instrumented
    callback is running it with the plain callback in the world where that
    one call has been recorded. *)
Theorem X11_callback_invoked_exactly_once :
  forall (client : Client) (params : ToolParams) (cb : Callback)
         (args extra : JsValue) (w : World),
    isConfigured client = true ->
    invoke client params (spy cb) args extra w
    = invoke client params cb args extra (record_call args extra w)
    /\ (forall o w',
           cb args extra (record_call args extra w) = (o, w') ->
           callback_calls w' = callback_calls (record_call args extra w) ->
           callback_calls (snd (invoke client params (spy cb) args extra w))
           = (callback_calls w ++ [(args, extra)])%list).
Proof.
  intros client params cb args extra w Hc.
  assert (E : invoke client params (spy cb) args extra w
              = invoke client params cb args extra
                  (record_call args extra w)).
  { rewrite !invoke_configured by exact Hc. reflexivity. }
  split; [exact E |].
  - intros o w' Hcb Hcalls. rewrite E, invoke_configured by exact Hc.
    rewrite Hcb.
    destruct o as [[| |r]|[m|m]]; simpl; try exact Hcalls.
    destruct (passes_contract r params); exact Hcalls.
Qed.

Lemma X11_witness :
  callback_calls
    (snd (invoke Fixtures.mockClient Fixtures.testTool
            (spy (Fixtures.throwing (PlainError "Y")))
            (JsStr "args") (JsStr "extra") Fixtures.emptyWorld))
  = (callback_calls Fixtures.emptyWorld
       ++ [(JsStr "args", JsStr "extra")])%list.
Proof.
  apply (proj2 (@X11_callback_invoked_exactly_once Fixtures.mockClient
                  Fixtures.testTool (Fixtures.throwing (PlainError "Y"))
                  (JsStr "args") (JsStr "extra") Fixtures.emptyWorld
                  eq_refl)
           (Throws (PlainError "Y"))
           (record_call (JsStr "args") (JsStr "extra") Fixtures.emptyWorld));
    reflexivity.
Defined.

(** X12. The output contract is violated exactly by a result that is not
    an error, lacks structuredContent, and belongs to a ToolSpec with an
    outputSchema; validation itself never touches the world and never
    raises a ToolError. *)
Theorem X12_contract_violation_characterised :
  forall (r : CallToolResult) (params : ToolParams) (w : World),
    snd (validateCallbackResult r params w) = w
    /\ (fst (validateCallbackResult r params w) = Returns tt
        \/ fst (validateCallbackResult r params w)
           = Throws (PlainError ("The result of the tool '" ++ title params
                                   ++ "' must include 'structuredContent'")))
    /\ (fst (validateCallbackResult r params w) <> Returns tt
        <-> is_truthy (isError r) = false
            /\ outputSchema params <> None
            /\ structuredContent r = None).
Proof.
  intros r params w. unfold validateCallbackResult, contract_message.
  destruct (is_truthy (isError r)) eqn:E,
           (outputSchema params) eqn:O,
           (structuredContent r) eqn:S; simpl;
    (split; [reflexivity | split; [auto |]]);
    split; try (intros H; now elim H);
    try (intros [? [? ?]]; congruence);
    try (intros _; repeat split; congruence);
    try discriminate.
Qed.

(** X13. After content normalisation a result that carries
    structuredContent never has empty content, and normalisation changes
    neither isError nor structuredContent. *)
Theorem X13_structured_result_has_content :
  forall (r : CallToolResult),
    isError (addStructuredContentAsText r) = isError r
    /\ structuredContent (addStructuredContentAsText r) = structuredContent r
    /\ (structuredContent r <> None ->
        content_is_empty (addStructuredContentAsText r) = false).
Proof.
  intros r. unfold addStructuredContentAsText.
  destruct (structuredContent r) as [sc|] eqn:S.
  - destruct (content_is_empty r) eqn:E; simpl; repeat split; auto.
  - repeat split; auto. intros H. now elim H.
Qed.

Lemma X13_witness :
  content_is_empty
    (addStructuredContentAsText
       {| isError := None; content := Some [];
          structuredContent := Some [] |}) = false.
Proof.
  apply (proj2 (proj2 (X13_structured_result_has_content
                         {| isError := None; content := Some [];
                            structuredContent := Some [] |}))).
  discriminate.
Defined.

(** X14. Content normalisation is idempotent: a result that went through
    it once is not changed by going through it again. *)
Theorem X14_normalisation_idempotent :
  forall (r : CallToolResult),
    addStructuredContentAsText (addStructuredContentAsText r)
    = addStructuredContentAsText r.
Proof.
  intros r. unfold addStructuredContentAsText.
  destruct (structuredContent r) as [sc|] eqn:S;
    [destruct (content_is_empty r) eqn:E |];
    simpl; rewrite ?S, ?E; reflexivity.
Qed.

(** ** The resource wrapper *)

(** X15. The resource wrapper hands on the callback's outcome as it is, a
    value or an exception, and reports every exception, a ToolError
    included, exactly once with metadata [{app: {resource, url}}] marked
    unhandled; a value is returned without any report. *)
Theorem X15_resource_errors_always_reported :
  forall (R : Type) (resourceName : string) (cb : ResourceCallback R)
         (url : string) (variables extra : JsValue) (w w' : World)
         (o : Outcome R),
    cb url variables extra w = (o, w') ->
    readResource resourceName cb url variables extra w
    = (o,
       match o with
       | Returns _ => w'
       | Throws e =>
           {| notifications :=
                notifications w'
                  ++ [{| ev_error := e;
                         ev_metadata :=
                           [("app",
                             [("resource", resourceName); ("url", url)])];
                         ev_unhandled := true |}];
              callback_calls := callback_calls w' |}
       end).
Proof.
  intros R resourceName cb url variables extra w w' o H.
  unfold readResource, try_catch. rewrite H.
  destruct o; reflexivity.
Qed.

Lemma X15_witness :
  readResource "test_resource"
    (fun _ _ _ => throw (ToolError "Test error from registerCbMock"))
    "test_product://test_resource/42" Fixtures.noArgs Fixtures.noArgs
    Fixtures.emptyWorld
  = (Throws (A := Resolved) (ToolError "Test error from registerCbMock"),
     {| notifications :=
          [{| ev_error := ToolError "Test error from registerCbMock";
              ev_metadata :=
                [("app", [("resource", "test_resource");
                          ("url", "test_product://test_resource/42")])];
              ev_unhandled := true |}];
        callback_calls := [] |}).
Proof.
  apply (@X15_resource_errors_always_reported Resolved "test_resource"
           (fun _ _ _ => throw (ToolError "Test error from registerCbMock"))
           "test_product://test_resource/42" Fixtures.noArgs Fixtures.noArgs
           Fixtures.emptyWorld Fixtures.emptyWorld
           (Throws (ToolError "Test error from registerCbMock"))).
  reflexivity.
Defined.

(** ** Input and output schemas *)

Section SchemaProperties.

Lemma obj_get_parameters (k : string) (ps : list ToolParameter) :
  forall acc : ZodRawShape,
    obj_get k
      (fold_left (fun acc p => obj_set (p_name p) (parameter_schema p) acc)
         ps acc)
    = match last_parameter k ps with
      | Some p => Some (parameter_schema p)
      | None => obj_get k acc
      end.
Proof.
  induction ps as [|p ps IH]; intros acc; simpl; [reflexivity |].
  rewrite IH. destruct (last_parameter k ps); [reflexivity |].
  rewrite obj_get_set. destruct (String.eqb (p_name p) k); reflexivity.
Qed.

Lemma getReadableTypeName_describe (z : ZodType) (d : string) :
  getReadableTypeName (describe z d) = getReadableTypeName z.
Proof.
  rewrite (getReadableTypeName_body (describe z d)).
  rewrite (getReadableTypeName_body z).
  destruct z; reflexivity.
Qed.

Lemma getReadableTypeName_optional (d : option string) (z : ZodType) :
  getReadableTypeName (ZodOptional d z) = getReadableTypeName z.
Proof.
  rewrite (getReadableTypeName_body (ZodOptional d z)).
  rewrite (getReadableTypeName_body z). reflexivity.
Qed.

End SchemaProperties.

(** X16. Reading a name in the registered input schema gives the field of
    the flattened inputSchema when it has one (schema fields override
    explicit parameters of the same name), and otherwise the entry of the
    last explicit parameter of that name: its type, described when a
    description is given and wrapped as optional when not required. *)
Theorem X16_input_schema_lookup :
  forall (params : ToolParams) (k : string),
    obj_get k (getInputSchema params)
    = match obj_get k (match schemaToRawShape (inputSchema params) with
                       | Some m => m
                       | None => []
                       end) with
      | Some field => Some field
      | None =>
          match last_parameter k (match parameters params with
                                  | Some l => l
                                  | None => []
                                  end) with
          | Some p =>
              let t := if Description.present (p_description p)
                       then describe (p_type p)
                              (Description.text (p_description p))
                       else p_type p in
              Some (if p_required p then t else ZodOptional None t)
          | None => None
          end
      end.
Proof.
  intros params k. unfold getInputSchema.
  rewrite obj_get_spread2, obj_get_parameters. reflexivity.
Qed.

(** X17. The entry registered for an explicit parameter has the readable
    type name of the parameter's declared type: describing it and wrapping
    it as optional do not change the label the description shows. *)
Theorem X17_registered_parameter_keeps_type_name :
  forall (p : ToolParameter),
    getReadableTypeName (parameter_schema p)
    = getReadableTypeName (p_type p).
Proof.
  intros p. unfold parameter_schema.
  destruct (p_required p), (Description.present (p_description p));
    rewrite ?getReadableTypeName_optional, ?getReadableTypeName_describe;
    reflexivity.
Qed.

(** X18. Flattening nested intersections is associative field by field:
    (A and B) and C reads every name as A and (B and C) does. *)
Theorem X18_flatten_associative :
  forall (d1 d2 d3 d4 : option string) (A B C : ZodType) (k : string),
    let fields (z : ZodType) :=
      match schemaToRawShape (Some z) with Some m => m | None => [] end in
    obj_get k (fields (ZodIntersection d1 (ZodIntersection d2 A B) C))
    = obj_get k (fields (ZodIntersection d3 A (ZodIntersection d4 B C))).
Proof.
  intros d1 d2 d3 d4 A B C k fields. subst fields.
  cbn [schemaToRawShape schemaToRawShape_of].
  rewrite !obj_get_spread2. cbn beta iota.
  repeat match goal with
         | |- context [obj_get k ?o] =>
             lazymatch goal with
             | |- context [match obj_get k o with _ => _ end] =>
                 destruct (obj_get k o)
             end
         end;
    reflexivity.
Qed.

(** X19. A side of an intersection that is neither an object nor an
    intersection contributes no field: the other side's fields are read
    unchanged, and when neither side flattens the result is the empty
    mapping, which is not undefined. *)
Theorem X19_non_object_side_contributes_nothing :
  forall (d : option string) (A B : ZodType),
    (schemaToRawShape (Some B) = None ->
     forall k shapeA,
       schemaToRawShape (Some A) = Some shapeA ->
       option_map (obj_get k)
         (schemaToRawShape (Some (ZodIntersection d A B)))
       = Some (obj_get k shapeA))
    /\ (schemaToRawShape (Some A) = None ->
        forall k shapeB,
          schemaToRawShape (Some B) = Some shapeB ->
          option_map (obj_get k)
            (schemaToRawShape (Some (ZodIntersection d A B)))
          = Some (obj_get k shapeB))
    /\ (schemaToRawShape (Some A) = None ->
        schemaToRawShape (Some B) = None ->
        schemaToRawShape (Some (ZodIntersection d A B)) = Some []).
Proof.
  intros d A B. cbn [schemaToRawShape schemaToRawShape_of]. repeat split.
  - intros HB k shapeA HA. rewrite HA, HB. cbn [option_map].
    rewrite obj_get_spread2. reflexivity.
  - intros HA k shapeB HB. rewrite HA, HB. cbn [option_map].
    rewrite obj_get_spread2. cbn.
    destruct (obj_get k shapeB); reflexivity.
  - intros HA HB. rewrite HA, HB. reflexivity.
Qed.

Lemma X19_witness :
  schemaToRawShape
    (Some (ZodIntersection None (ZodString None) (ZodNumber None)))
  = Some [].
Proof.
  apply (proj2 (proj2 (X19_non_object_side_contributes_nothing None
                         (ZodString None) (ZodNumber None))));
    reflexivity.
Defined.

(** ** The description compiler *)

Section DescriptionProperties.
Import JsString Description.

Lemma trimStart_solid (s : string) :
  Spec.starts_with_whitespace (trimStart s) = false.
Proof.
  induction s as [|c s IH]; simpl; [reflexivity |].
  destruct (isWhiteSpace c) eqn:W; [exact IH | simpl; exact W].
Qed.

Lemma trimEnd_keeps_start (s : string) :
  Spec.starts_with_whitespace s = false ->
  Spec.starts_with_whitespace (trimEnd s) = false.
Proof.
  destruct s as [|c s]; simpl; intros H; [reflexivity |].
  destruct (trimEnd s); [rewrite H |]; simpl; exact H.
Qed.

Lemma trimEnd_solid (s : string) :
  trimEnd s = EmptyString \/ ends_solid (trimEnd s) = true.
Proof.
  induction s as [|c s IH]; simpl; [left; reflexivity |].
  destruct (trimEnd s) as [|y r] eqn:T.
  - destruct (isWhiteSpace c) eqn:W; [left; reflexivity | right].
    unfold ends_solid. simpl. rewrite W. reflexivity.
  - right. destruct IH as [IH | IH]; [discriminate |]. exact IH.
Qed.

Lemma last_unit_append (a b : string) :
  b <> EmptyString -> last_unit (a ++ b) = last_unit b.
Proof.
  intros N. induction a as [|c a IH]; simpl; [reflexivity |].
  destruct (a ++ b) eqn:E; [| exact IH].
  destruct a; simpl in E; [now elim N | discriminate].
Qed.

Lemma mapi_from_nth {A B : Type} (f : A -> nat -> B) (l : list A) :
  forall (start i : nat) (x : A),
    nth_error l i = Some x ->
    nth_error (mapi_from start f l) i = Some (f x (start + i)).
Proof.
  induction l as [|y l IH]; intros start [|i] x H; simpl in *;
    try discriminate.
  - injection H as ->. rewrite Nat.add_0_r. reflexivity.
  - rewrite (IH (S start) i x H). f_equal. f_equal. lia.
Qed.

Lemma mapi_from_length {A B : Type} (f : A -> nat -> B) (l : list A) :
  forall start, List.length (mapi_from start f l) = List.length l.
Proof.
  induction l as [|y l IH]; intros start; simpl; [reflexivity |].
  now rewrite IH.
Qed.

Lemma describe_not_wrapper (t : ZodType) (d : string) :
  is_wrapper t = false ->
  unwrapZodType (describe t d) = describe t d
  /\ Spec.seen_optional (describe t d) = false
  /\ Spec.innermost_default (describe t d) = None
  /\ Spec.first_description (describe t d)
     = (if truthy d then Some d else None).
Proof.
  destruct t; simpl; intros H; try discriminate;
    unfold description_or_null; simpl;
    destruct (truthy d); repeat split; reflexivity.
Qed.

Lemma plain_not_wrapper (t : ZodType) :
  is_wrapper t = false ->
  unwrapZodType t = t
  /\ Spec.seen_optional t = false
  /\ Spec.innermost_default t = None
  /\ Spec.first_description t = description_or_null t.
Proof.
  destruct t; simpl; intros H; try discriminate;
    rewrite ?nullish_or_none_r; repeat split; reflexivity.
Qed.

End DescriptionProperties.

(** X20. A compiled description never starts with whitespace, and unless
    it is empty it does not end with whitespace either. *)
Theorem X20_description_is_trimmed :
  forall (params : ToolParams),
    Spec.starts_with_whitespace (getDescription params) = false
    /\ (getDescription params = EmptyString
        \/ JsString.ends_solid (getDescription params) = true).
Proof.
  intros params. unfold getDescription, JsString.trim. split.
  - apply trimEnd_keeps_start, trimStart_solid.
  - apply trimEnd_solid.
Qed.

(** X21. An optional list that is present but empty, and an output
    description that is the empty text, are treated as absent: leaving
    them out gives the same description. *)
Theorem X21_empty_fields_count_as_absent :
  forall (params : ToolParams),
    getDescription (without_empty_fields params) = getDescription params.
Proof.
  intros [t s ps i o uc ex h od ro de idm ow].
  unfold getDescription, without_empty_fields. simpl.
  destruct ps as [[|]|], uc as [[|]|], ex as [[|]|], h as [[|]|],
           od as [[|]|]; reflexivity.
Qed.

(** X22. A ToolSpec that supplies nothing but a summary (the optional
    fields absent or empty, the inputSchema not a plain object) compiles to
    the trimmed summary. *)
Theorem X22_summary_only :
  forall (params : ToolParams),
    parameters (without_empty_fields params) = None ->
    (forall d shape, inputSchema params <> Some (ZodObject d shape)) ->
    outputDescription (without_empty_fields params) = None ->
    useCases (without_empty_fields params) = None ->
    examples (without_empty_fields params) = None ->
    hints (without_empty_fields params) = None ->
    getDescription params = JsString.trim (summary params).
Proof.
  intros [t s ps i o uc ex h od ro de idm ow]. simpl.
  intros Hp Hi Ho Hu He Hh. unfold getDescription. simpl.
  assert (Ei : Description.inputSchema_section i = EmptyString).
  { destruct i as [[]|]; try reflexivity. now elim (Hi description shape). }
  rewrite Ei.
  destruct ps as [[|]|]; try discriminate;
    destruct uc as [[|]|]; try discriminate;
    destruct ex as [[|]|]; try discriminate;
    destruct h as [[|]|]; try discriminate;
    destruct od as [[|]|]; try discriminate;
    simpl; rewrite ?append_nil_r; reflexivity.
Qed.

Lemma X22_witness :
  getDescription
    {| title := "Test Tool"; summary := " A test tool ";
       parameters := Some []; inputSchema := Some (ZodString None);
       outputSchema := None; useCases := None; examples := Some [];
       hints := None; outputDescription := Some EmptyString;
       readOnly := None; destructive := None; idempotent := None;
       openWorld := None |}
  = JsString.trim " A test tool ".
Proof.
  apply (@X22_summary_only
           {| title := "Test Tool"; summary := " A test tool ";
              parameters := Some []; inputSchema := Some (ZodString None);
              outputSchema := None; useCases := None; examples := Some [];
              hints := None; outputDescription := Some EmptyString;
              readOnly := None; destructive := None; idempotent := None;
              openWorld := None |});
    try reflexivity.
  intros d shape. discriminate.
Defined.

(** X23. When a ToolSpec supplies both a non-empty explicit parameter list
    and a plain object inputSchema, the description holds the Parameters
    header twice: the first is followed by the explicit parameter lines,
    then a blank line and the second header. *)
Theorem X23_two_parameter_sections :
  forall (params : ToolParams) (p : ToolParameter) (ps : list ToolParameter)
         (d : option string) (shape : ZodRawShape),
    parameters params = Some (p :: ps) ->
    inputSchema params = Some (ZodObject d shape) ->
    JsString.includes
      ("**Parameters:**" ++ Description.nl
         ++ JsString.join Description.nl
              (map Description.parameter_line (p :: ps))
         ++ Description.nl ++ Description.nl ++ "**Parameters:**")
      (getDescription params) = true.
Proof.
  intros params p ps d shape Hp Hi.
  unfold getDescription. rewrite Hp, Hi.
  apply includes_trim.
  - reflexivity.
  - unfold JsString.ends_solid.
    rewrite <- !append_assoc, last_unit_append by discriminate.
    reflexivity.
  - unfold Description.parameters_section, Description.inputSchema_section.
    set (lines := JsString.join Description.nl
                    (map Description.parameter_line (p :: ps))).
    set (rest := Description.outputDescription_section _ ++ _).
    replace (summary params
               ++ (Description.nl ++ Description.nl ++ "**Parameters:**"
                     ++ Description.nl ++ lines)
               ++ (Description.nl ++ Description.nl ++ "**Parameters:**"
                     ++ Description.nl
                     ++ JsString.join Description.nl
                          (Description.schema_lines shape))
               ++ rest)
      with ((summary params ++ Description.nl ++ Description.nl)
              ++ ("**Parameters:**" ++ Description.nl ++ lines
                    ++ Description.nl ++ Description.nl ++ "**Parameters:**")
              ++ (Description.nl
                    ++ JsString.join Description.nl
                         (Description.schema_lines shape)
                    ++ rest))
      by (rewrite !append_assoc; reflexivity).
    apply includes_append.
Qed.

Lemma X23_witness :
  JsString.includes
    ("**Parameters:**" ++ Description.nl
       ++ JsString.join Description.nl
            (map Description.parameter_line
               [Fixtures.param "p1" (ZodString None) true None])
       ++ Description.nl ++ Description.nl ++ "**Parameters:**")
    (getDescription
       {| title := "Search values"; summary := "Both kinds of parameters";
          parameters := Some [Fixtures.param "p1" (ZodString None) true None];
          inputSchema := Some Fixtures.searchInput; outputSchema := None;
          useCases := None; examples := None; hints := None;
          outputDescription := None; readOnly := None; destructive := None;
          idempotent := None; openWorld := None |}) = true.
Proof.
  eapply (@X23_two_parameter_sections
           {| title := "Search values"; summary := "Both kinds of parameters";
              parameters :=
                Some [Fixtures.param "p1" (ZodString None) true None];
              inputSchema := Some Fixtures.searchInput; outputSchema := None;
              useCases := None; examples := None; hints := None;
              outputDescription := None; readOnly := None;
              destructive := None; idempotent := None; openWorld := None |}
           (Fixtures.param "p1" (ZodString None) true None) [] None _);
    reflexivity.
Defined.

(** X24. Use cases and hints are numbered from 1 in the order given: the
    text is the items joined by single spaces, as many as there are
    entries, and the item at position i is "i+1. " followed by the
    entry. *)
Theorem X24_numbered_from_one :
  forall (l : list string),
    exists items,
      Description.numbered l = JsString.join " " items
      /\ List.length items = List.length l
      /\ forall i s,
          nth_error l i = Some s ->
          nth_error items i
          = Some (JsString.of_nat (i + 1) ++ ". " ++ s).
Proof.
  intros l.
  exists (Description.mapi_from 0
            (fun s i => JsString.of_nat (i + 1) ++ ". " ++ s) l).
  split; [reflexivity | split].
  - apply mapi_from_length.
  - intros i s H.
    rewrite (@mapi_from_nth _ _
               (fun s i => JsString.of_nat (i + 1) ++ ". " ++ s) l 0 i s H).
    reflexivity.
Qed.

(** ** The per-field formatter *)

(** X25. The order of an optional and a default wrapper does not matter to
    the line: optional(default(z)) and default(optional(z)), with the same
    descriptions on the outer and on the inner wrapper, are formatted
    alike. *)
Theorem X25_wrapper_order_is_irrelevant :
  forall (key : string) (d1 d2 : option string) (z : ZodType)
         (dv : JsValue),
    formatParameterDescription key (ZodOptional d1 (ZodDefault d2 z dv))
      None false None
    = formatParameterDescription key (ZodDefault d1 (ZodOptional d2 z) dv)
        None false None.
Proof.
  intros key d1 d2 z dv.
  rewrite !formatParameterDescription_acc. cbn.
  destruct (Spec.innermost_default z); cbn; rewrite ?orb_true_r;
    reflexivity.
Qed.

(** X26. The two ways of documenting a parameter agree.  For an explicit
    parameter without examples and constraints whose declared type is not
    an optional or default wrapper, and which either has a description or
    whose type carries none, the line of the explicit list is the line the
    schema formatter produces for the entry registered in the input
    schema. *)
Theorem X26_explicit_line_matches_schema_line :
  forall (p : ToolParameter),
    p_examples p = None ->
    p_constraints p = None ->
    is_wrapper (p_type p) = false ->
    Description.present (p_description p) = true
    \/ description_or_null (p_type p) = None ->
    Description.parameter_line p
    = formatParameterDescription (p_name p) (parameter_schema p)
        None false None.
Proof.
  intros [n t req dsc exs cs]. simpl. intros -> -> W D.
  unfold Description.parameter_line, parameter_schema. simpl.
  rewrite formatParameterDescription_acc, getReadableTypeName_unwrap.
  rewrite !append_nil_r.
  destruct (Description.present dsc) eqn:P.
  - destruct dsc as [dtext|]; [| discriminate]. simpl in P. simpl.
    destruct (@describe_not_wrapper t dtext W) as [U [O [I F]]].
    rewrite P in F.
    destruct req; cbn;
      rewrite ?getReadableTypeName_optional, ?getReadableTypeName_describe,
              ?O, ?I, ?F; cbn; rewrite ?P, ?append_nil_r; reflexivity.
  - destruct D as [D | D]; [discriminate |].
    destruct (@plain_not_wrapper t W) as [U [O [I F]]].
    rewrite D in F.
    destruct req; cbn;
      rewrite ?getReadableTypeName_optional, ?O, ?I, ?F; cbn;
      rewrite ?append_nil_r; reflexivity.
Qed.

Lemma X26_witness :
  Description.parameter_line
    (Fixtures.param "p2" (ZodNumber None) false
       (Some "The optional numeric input for the tool"))
  = formatParameterDescription "p2"
      (parameter_schema
         (Fixtures.param "p2" (ZodNumber None) false
            (Some "The optional numeric input for the tool")))
      None false None.
Proof.
  apply (@X26_explicit_line_matches_schema_line
           (Fixtures.param "p2" (ZodNumber None) false
              (Some "The optional numeric input for the tool")));
    [reflexivity | reflexivity | reflexivity | left; reflexivity].
Defined.

(** ** The order of the fields of a merged shape *)

Section KeyOrder.
Variable V : Type.
Implicit Types (o target source : JsObj.t V) (k : string).












End KeyOrder.



(** ** The output contract and the registered output schema *)

(** X29. The output contract follows the ToolSpec's outputSchema, not the
    registered one: when the declared outputSchema is neither an object
    nor an intersection, the tool is registered without an output schema,
    yet a configured call whose result is not an error and lacks
    structuredContent is still rejected with the contract error and
    reported. *)
Theorem X29_contract_enforced_without_registered_schema :
  forall (client : Client) (params : ToolParams) (cb : Callback)
         (args extra : JsValue) (w w' : World) (r : CallToolResult)
         (schema : ZodType),
    outputSchema params = Some schema ->
    schemaToRawShape (Some schema) = None ->
    isConfigured client = true ->
    cb args extra w = (Returns (ResolvedResult r), w') ->
    is_truthy (isError r) = false ->
    structuredContent r = None ->
    rt_outputSchema (registerTool client params cb) = None
    /\ fst (rt_invoke (registerTool client params cb) args extra w)
       = Throws (PlainError ("The result of the tool '" ++ title params
                               ++ "' must include 'structuredContent'"))
    /\ List.length
         (notifications
            (snd (rt_invoke (registerTool client params cb) args extra w)))
       = S (List.length (notifications w')).
Proof.
  intros client params cb args extra w w' r schema Ho Hf Hc Hcb He Hs.
  cbn [registerTool rt_outputSchema rt_invoke]. unfold getOutputSchema.
  rewrite Ho, Hf. split; [reflexivity |].
  rewrite invoke_configured by exact Hc. rewrite Hcb.
  assert (P : passes_contract r params = false).
  { unfold passes_contract. rewrite He, Ho, Hs. reflexivity. }
  rewrite P. split; [reflexivity |].
  simpl. rewrite length_app. simpl. lia.
Qed.

Lemma X29_witness :
  rt_outputSchema
    (registerTool Fixtures.mockClient
       (Fixtures.with_schemas Fixtures.testTool None
          (Some (ZodArray None (ZodString None))))
       (Fixtures.resolving
          (ResolvedResult {| isError := None; content := None;
                             structuredContent := None |})))
  = None
  /\ fst (rt_invoke
            (registerTool Fixtures.mockClient
               (Fixtures.with_schemas Fixtures.testTool None
                  (Some (ZodArray None (ZodString None))))
               (Fixtures.resolving
                  (ResolvedResult {| isError := None; content := None;
                                     structuredContent := None |})))
            Fixtures.noArgs Fixtures.noArgs Fixtures.emptyWorld)
     = Throws
         (PlainError
            "The result of the tool 'Test Tool' must include 'structuredContent'").
Proof.
  destruct (@X29_contract_enforced_without_registered_schema
              Fixtures.mockClient
              (Fixtures.with_schemas Fixtures.testTool None
                 (Some (ZodArray None (ZodString None))))
              (Fixtures.resolving
                 (ResolvedResult {| isError := None; content := None;
                                    structuredContent := None |}))
              Fixtures.noArgs Fixtures.noArgs Fixtures.emptyWorld
              Fixtures.emptyWorld
              {| isError := None; content := None;
                 structuredContent := None |}
              (ZodArray None (ZodString None))
              eq_refl eq_refl eq_refl eq_refl eq_refl eq_refl)
    as [H1 [H2 _]].
  split; [exact H1 | exact H2].
Defined.
